(** * CalAgent: a shallow embedding of the calendar client, the tool layer
    and the conversation history, with the properties of its specification.

  Sources embedded here:
  - [src/cal_api.py]: [get_scheduled_events], [book_event], [cancel_event];
  - [src/main.py]:    the tools [list_user_events], [create_calendar_booking],
                      [cancel_calendar_booking], the CLI history update and the
                      configuration of the agent executor;
  - [src/app.py]:     [update_chat_history] and
                      [process_user_message_with_steps].

  Python strings are byte strings in UTF-8 ([string]); Python integers are [Z];
  a Python dict with string keys is a [gmap string _]; Python exceptions are
  values of a result type threaded by a small state-and-error monad whose
  state is the process environment, the remote service and the log of the
  HTTP requests issued so far. *)

From Stdlib Require Import ZArith Lia Ascii String DecimalString.
From stdpp Require Import base option list strings gmap.

Set Warnings "-register-all".
Set Default Proof Using "Type".

Open Scope Z_scope.

(** ** Conversation history ([src/app.py], [src/main.py]) *)

Module History.

(** [langchain.schema.HumanMessage] and [AIMessage], by their content. *)
Inductive message :=
| HumanMessage (content : string)
| AIMessage (content : string).

(** The Python slice [l[-n:]]: for [n = 0] it is [l[0:]], the whole list;
    otherwise the start index [len(l) - n] is clamped at [0]. *)
Definition slice_last {A} (n : nat) (l : list A) : list A :=
  if decide (n = 0%nat) then l else drop (length l - n) l.

(** The two appends followed by the length test, shared by both loops:
<<
    chat_history.append(HumanMessage(content=u))
    chat_history.append(AIMessage(content=a))
    if len(chat_history) > cap:
        chat_history = chat_history[-cap:]
>> *)
Definition append_and_limit (cap : nat) (chat_history : list message)
    (u a : string) : list message :=
  let h1 := chat_history ++ [HumanMessage u] in
  let h2 := h1 ++ [AIMessage a] in
  if decide (cap < length h2)%nat then slice_last cap h2 else h2.

(** [st.session_state] of the web UI: the displayed messages (role, content)
    and the history given to the agent. *)
Record session_state := SessionState {
  messages : list (string * string);
  chat_history : list message
}.

(** [update_chat_history] of [src/app.py]. The banner shown when the user
    message contains an e-mail address is output only and leaves the session
    state untouched. *)
Definition update_chat_history (st : session_state)
    (user_message assistant_message : string) : session_state :=
  {| messages := (messages st ++ [("user", user_message)])
                   ++ [("assistant", assistant_message)];
     chat_history := append_and_limit 20 (chat_history st)
                       user_message assistant_message |}.

(** The history update at the end of one round of the chat loop of [main]
    in [src/main.py]. *)
Definition cli_update (chat_history : list message)
    (user_input output : string) : list message :=
  append_and_limit 10 chat_history user_input output.

(** A whole session: the updates of a sequence of (user, assistant) turns,
    from a given history. *)
Definition ui_session (st : session_state) (turns : list (string * string))
    : session_state :=
  foldl (fun s t => update_chat_history s t.1 t.2) st turns.

Definition cli_session (h : list message) (turns : list (string * string))
    : list message :=
  foldl (fun s t => cli_update s t.1 t.2) h turns.

Definition initial_state : session_state :=
  {| messages := []; chat_history := [] |}.

End History.


(** ** The Python values and library functions the program relies on *)

Module Py.

(** A value as [response.json()] returns it, and as the request payload is
    built: [None], booleans, integers, floats (kept by their literal text, the
    program never computes with them), strings, lists and dicts keyed by
    strings. *)
Inductive pyval :=
| PNone
| PBool (b : bool)
| PInt (z : Z)
| PFloat (lit : string)
| PStr (s : string)
| PList (l : list pyval)
| PDict (d : gmap string pyval).

(** The exception classes the program names in its handlers, and those the
    modelled operations raise. All of them derive from [Exception]. *)
Inductive exn_class :=
| ValueError
| KeyError
| AttributeError
| TypeError
| OverflowError
| JSONDecodeError           (* json.JSONDecodeError, a ValueError *)
| RequestException          (* requests.exceptions.RequestException *)
| HTTPError                 (* requests.exceptions.HTTPError *)
| ConnectionError           (* requests.exceptions.ConnectionError *)
| Timeout                   (* requests.exceptions.Timeout *)
| RequestsJSONDecodeError   (* requests.exceptions.JSONDecodeError *)
| OtherException.

(** An exception: its class and [str(e)]. *)
Record exn := Exn { exn_cls : exn_class; exn_msg : string }.

(** [isinstance(e, requests.exceptions.RequestException)] *)
Definition is_RequestException (e : exn) : bool :=
  match exn_cls e with
  | RequestException | HTTPError | ConnectionError | Timeout
  | RequestsJSONDecodeError => true
  | _ => false
  end.

Definition is_HTTPError (e : exn) : bool :=
  match exn_cls e with HTTPError => true | _ => false end.

(** [isinstance(e, ValueError)] *)
Definition is_ValueError (e : exn) : bool :=
  match exn_cls e with
  | ValueError | JSONDecodeError | RequestsJSONDecodeError => true
  | _ => false
  end.

Definition is_KeyError (e : exn) : bool :=
  match exn_cls e with KeyError => true | _ => false end.

(** The outcome of a Python call: a value or a raised exception. *)
Inductive result (A : Type) :=
| Ok (a : A)
| Raise (e : exn).
Arguments Ok {A} a.
Arguments Raise {A} e.

(** *** Strings *)

(** [needle in s] for two strings. *)
Fixpoint contains (needle s : string) : bool :=
  match s with
  | EmptyString => String.prefix needle s
  | String _ s' => String.prefix needle s || contains needle s'
  end.

(** ['+' not in s] *)
Fixpoint no_plus (s : string) : bool :=
  match s with
  | EmptyString => true
  | String c s' => negb (Ascii.eqb c "+") && no_plus s'
  end.

(** [s.replace(old, new)] for a non-empty [old]: the occurrences are replaced
    from left to right and do not overlap. [skip] counts the characters of an
    occurrence already replaced. *)
Fixpoint replace_from (old new : string) (skip : nat) (s : string) : string :=
  match s with
  | EmptyString => EmptyString
  | String c s' =>
      match skip with
      | S k => replace_from old new k s'
      | O =>
          if String.prefix old s
          then new +:+ replace_from old new (String.length old - 1) s'
          else String c (replace_from old new O s')
      end
  end.

Definition replace (old new s : string) : string := replace_from old new O s.

(** [s.split(sep)[0]] for a one-character separator: the text before the
    first [sep], the whole string when there is none. *)
Fixpoint split_head (sep : ascii) (s : string) : string :=
  match s with
  | EmptyString => EmptyString
  | String c s' =>
      if Ascii.eqb c sep then EmptyString else String c (split_head sep s')
  end.

(** The double quote character, as a string. *)
Definition dquote : string := String (ascii_of_nat 34) EmptyString.

(** The first character of a string. *)
Definition head_char (s : string) : option ascii :=
  match s with
  | String c _ => Some c
  | EmptyString => None
  end.

(** [str(n)] for an integer. *)
Definition str_int (z : Z) : string := NilZero.string_of_int (Z.to_int z).

(** One decimal digit, and the zero-padded fields of [isoformat]. *)
Definition digit_char (d : Z) : ascii := ascii_of_nat (48 + Z.to_nat d).

Definition pad2 (n : Z) : string :=
  String (digit_char (n / 10 mod 10)) (String (digit_char (n mod 10)) EmptyString).

Definition pad4 (n : Z) : string :=
  pad2 (n / 100) +:+ pad2 (n mod 100).

Definition pad6 (n : Z) : string :=
  pad2 (n / 10000) +:+ pad4 (n mod 10000).

Definition digit_val (c : ascii) : option Z :=
  let n := Z.of_nat (nat_of_ascii c) in
  if decide (48 <= n <= 57) then Some (n - 48) else None.

(** Exactly [n] decimal digits at the head of [s]: their value and the rest. *)
Fixpoint read_digits (n : nat) (acc : Z) (s : string) : option (Z * string) :=
  match n with
  | O => Some (acc, s)
  | S n' =>
      match s with
      | EmptyString => None
      | String c s' =>
          d ← digit_val c; read_digits n' (10 * acc + d) s'
      end
  end.

Definition expect (c : ascii) (s : string) : option string :=
  match s with
  | String c' s' => if Ascii.eqb c c' then Some s' else None
  | EmptyString => None
  end.

(** *** [datetime]

    A [datetime.datetime]: the civil fields and, for an aware value, the
    offset from UTC in microseconds, the resolution of [timedelta]. *)
Record datetime := Datetime {
  year : Z; month : Z; day : Z;
  hour : Z; minute : Z; second : Z; microsecond : Z;
  utcoffset : option Z
}.

Definition MAXYEAR : Z := 9999.

Definition is_leap (y : Z) : bool :=
  (y mod 4 =? 0) && (negb (y mod 100 =? 0) || (y mod 400 =? 0)).

Definition days_in_month (y m : Z) : Z :=
  if m =? 2 then (if is_leap y then 29 else 28)
  else if (m =? 4) || (m =? 6) || (m =? 9) || (m =? 11) then 30
  else 31.

(** Days before January 1st of year [y], and before the first of month [m]
    in year [y]. *)
Definition days_before_year (y : Z) : Z :=
  let p := y - 1 in p * 365 + p / 4 - p / 100 + p / 400.

Definition days_before_month (y m : Z) : Z :=
  nth (Z.to_nat m) [0; 0; 31; 59; 90; 120; 151; 181; 212; 243; 273; 304; 334] 0
  + (if (2 <? m) && is_leap y then 1 else 0).

(** [d.toordinal()]: January 1st of year 1 is day 1. *)
Definition toordinal (d : datetime) : Z :=
  days_before_year (year d) + days_before_month (year d) (month d) + day d.

(** Microseconds since the start of day 0 of the proleptic calendar, in UTC
    for an aware value and in wall-clock time for a naive one: the instant a
    datetime denotes. *)
Definition instant (d : datetime) : Z :=
  (((toordinal d * 24 + hour d) * 60 + minute d) * 60 + second d) * 1000000
  + microsecond d - default 0 (utcoffset d).

(** The ranges the constructor of [datetime] enforces. *)
Definition valid_fields (y mo d h mi s : Z) : bool :=
  bool_decide (1 <= y <= MAXYEAR) && bool_decide (1 <= mo <= 12)
  && bool_decide (1 <= d <= days_in_month y mo)
  && bool_decide (0 <= h <= 23) && bool_decide (0 <= mi <= 59)
  && bool_decide (0 <= s <= 59).

(** A datetime whose fields are in range. *)
Definition valid (dt : datetime) : Prop :=
  valid_fields (year dt) (month dt) (day dt) (hour dt) (minute dt) (second dt)
  = true.

(** What every [datetime] object satisfies: the fields in range, the
    microseconds below a second, the offset strictly within a day. *)
Definition well_formed_b (dt : datetime) : bool :=
  valid_fields (year dt) (month dt) (day dt) (hour dt) (minute dt) (second dt)
  && (0 <=? microsecond dt) && (microsecond dt <? 1000000)
  && match utcoffset dt with
     | Some off => (-86400000000 <? off) && (off <? 86400000000)
     | None => true
     end.

Definition well_formed (dt : datetime) : Prop := well_formed_b dt = true.

(** The day after a date; [None] past the last day of [MAXYEAR]. *)
Definition next_day (y m d : Z) : option (Z * Z * Z) :=
  if d <? days_in_month y m then Some (y, m, d + 1)
  else if m <? 12 then Some (y, m + 1, 1)
  else if y <? MAXYEAR then Some (y + 1, 1, 1)
  else None.

(** [dt + timedelta(minutes=n)] for [0 <= n < 1440]: the wall-clock fields
    advance with carries into the hour and the day, the offset is kept, and a
    result past year [MAXYEAR] is an [OverflowError]. *)
Definition add_minutes (dt : datetime) (n : Z) : result datetime :=
  let m := minute dt + n in
  let h := hour dt + m / 60 in
  if h <? 24 then
    Ok (Datetime (year dt) (month dt) (day dt) h (m mod 60)
          (second dt) (microsecond dt) (utcoffset dt))
  else
    match next_day (year dt) (month dt) (day dt) with
    | Some (y, mo, d) =>
        Ok (Datetime y mo d (h - 24) (m mod 60)
              (second dt) (microsecond dt) (utcoffset dt))
    | None => Raise (Exn OverflowError "date value out of range")
    end.

(** The seconds of an offset as [isoformat] prints them: nothing for whole
    minutes, else [:SS], with [.ffffff] when there are microseconds. [a] is
    the absolute offset. *)
Definition offset_tail (a : Z) : string :=
  if (a / 1000000 mod 60 =? 0) && (a mod 1000000 =? 0) then EmptyString
  else ":" +:+ pad2 (a / 1000000 mod 60)
       +:+ (if a mod 1000000 =? 0 then EmptyString
            else "." +:+ pad6 (a mod 1000000)).

(** The offset as [isoformat] prints it: the sign, [HH:MM], the seconds. *)
Definition format_offset (off : Z) : string :=
  (if off <? 0 then "-" else "+")
  +:+ pad2 (Z.abs off / 3600000000) +:+ ":"
  +:+ pad2 (Z.abs off / 60000000 mod 60)
  +:+ offset_tail (Z.abs off).

(** The date and the time of day as [isoformat] prints them, down to the
    seconds. *)
Definition local_text (dt : datetime) : string :=
  pad4 (year dt) +:+ "-" +:+ pad2 (month dt) +:+ "-" +:+ pad2 (day dt)
  +:+ "T" +:+ pad2 (hour dt) +:+ ":" +:+ pad2 (minute dt)
  +:+ ":" +:+ pad2 (second dt).

(** The microseconds as [isoformat] prints them: nothing when zero. *)
Definition fraction_text (dt : datetime) : string :=
  if microsecond dt =? 0 then EmptyString
  else "." +:+ pad6 (microsecond dt).

(** [dt.isoformat()]: the microseconds are printed when they are not zero,
    the offset when the value is aware. *)
Definition isoformat (dt : datetime) : string :=
  local_text dt +:+ fraction_text dt
  +:+ match utcoffset dt with
      | Some off => format_offset off
      | None => EmptyString
      end.

(** The zone as it stands in the end time of a booking, where [+00:00] is
    written [Z]: nothing for a naive value; [Z] for the offset zero; [Z]
    followed by the seconds for an offset east of UTC by less than a minute,
    whose text starts with [+00:00]; the printed offset otherwise. *)
Definition zone_text (off : option Z) : string :=
  match off with
  | None => EmptyString
  | Some o =>
      if (0 <=? o) && (o <? 60000000) then "Z" +:+ offset_tail o
      else format_offset o
  end.

(** The text after the first [n] characters; with [n = 19], what follows the
    seconds of an ISO string. *)
Fixpoint drop_chars (n : nat) (s : string) : string :=
  match n, s with
  | S n', String _ s' => drop_chars n' s'
  | _, _ => s
  end.

Definition zone_suffix (s : string) : string := drop_chars 19 s.

(** *** What is left to the interpreter

    Five library functions whose results depend on the version of the
    interpreter, on its Unicode tables and on its printing conventions; the
    program only passes their arguments and results on. [int_of_str s] is
    [int(s)], [None] when it raises [ValueError]; [str_title] is
    [str.title]; [repr_of] is [str(v)] for a value that is neither a string
    nor an integer, a boolean or [None]; [strftime d fmt] is
    [d.strftime(fmt)]; [fromisoformat s] is [datetime.fromisoformat(s)],
    which returns a datetime object or raises. Which strings it accepts is
    the interpreter's business (date only, with or without seconds, with
    fractions of a second, with offsets down to the microsecond, and more
    in later versions); what it returns is a datetime object, hence
    well-formed. *)
Class Interpreter := {
  int_of_str : string -> option Z;
  str_title : string -> string;
  repr_of : pyval -> string;
  strftime : datetime -> string -> string;
  fromisoformat : string -> result datetime;
  fromisoformat_well_formed :
    forall s dt, fromisoformat s = Ok dt -> well_formed dt
}.

(** [str(v)], as an f-string field renders [v]. *)
Definition py_str `{Interpreter} (v : pyval) : string :=
  match v with
  | PStr s => s
  | PInt z => str_int z
  | PNone => "None"
  | PBool true => "True"
  | PBool false => "False"
  | _ => repr_of v
  end.

(** [type(v).__name__], for the text of an [AttributeError] or [TypeError]. *)
Definition type_name (v : pyval) : string :=
  match v with
  | PNone => "NoneType"
  | PBool _ => "bool"
  | PInt _ => "int"
  | PFloat _ => "float"
  | PStr _ => "str"
  | PList _ => "list"
  | PDict _ => "dict"
  end.

(** [v.get(key, default)]: defined on dicts, an [AttributeError] elsewhere. *)
Definition py_get (v : pyval) (key : string) (dflt : pyval) : result pyval :=
  match v with
  | PDict d => Ok (default dflt (d !! key))
  | _ => Raise (Exn AttributeError
                  ("'" +:+ type_name v +:+ "' object has no attribute 'get'"))
  end.

(** [needle in v] for a string [needle]: substring test on a string,
    membership on a list, key membership on a dict, a [TypeError] on the
    values that are not iterable. *)
Definition py_in (needle : string) (v : pyval) : result bool :=
  match v with
  | PStr s => Ok (contains needle s)
  | PList l =>
      Ok (existsb (fun x => match x with
                            | PStr s => bool_decide (s = needle)
                            | _ => false
                            end) l)
  | PDict d => Ok (bool_decide (is_Some (d !! needle)))
  | _ => Raise (Exn TypeError
                  ("argument of type '" +:+ type_name v +:+ "' is not iterable"))
  end.

(** [for x in v]: the elements a [for] loop visits. A string yields its
    characters, a dict its keys (in an order the model does not fix, hence
    only their number and the fact that they are strings are used). *)
Definition py_iter (v : pyval) : result (list pyval) :=
  match v with
  | PList l => Ok l
  | PStr s => Ok ((fun c => PStr (String c EmptyString)) <$> String.list_ascii_of_string s)
  | PDict d => Ok ((fun kv => PStr kv.1) <$> map_to_list d)
  | _ => Raise (Exn TypeError
                  ("'" +:+ type_name v +:+ "' object is not iterable"))
  end.


End Py.
(** ** The process, the remote service and the effect monad *)

Module Net.
Import Py.

Inductive http_method := GET | POST | DELETE.

(** A call of [requests.get], [requests.post] or [requests.delete]. *)
Record request := Request {
  req_method : http_method;
  req_url : string;
  req_headers : list (string * string);
  req_params : list (string * string);
  req_json : option pyval
}.

(** A [requests.Response]: the status line, the final URL and what
    [response.json()] does, return the parsed body or raise. *)
Record response := Response {
  status_code : Z;
  reason : string;
  resp_url : string;
  json_result : result pyval
}.

(** What a request leads to: a response, or an exception raised by the
    transport before any response exists. *)
Inductive http_outcome :=
| Answered (r : response)
| Failed (e : exn).

(** The world a call runs in: [os.environ], the wall clock in UTC, the
    remote service, and the requests issued so far, oldest first. *)
Record world := World {
  environ : gmap string string;
  clock : datetime;
  remote : request -> http_outcome;
  calls : list request
}.

(** Computations that read and extend the world and may raise. *)
Definition M (A : Type) : Type := world -> result A * world.

#[export] Instance M_ret : MRet M := fun A a w => (Ok a, w).

#[export] Instance M_bind : MBind M := fun A B f m w =>
  match m w with
  | (Ok a, w') => f a w'
  | (Raise e, w') => (Raise e, w')
  end.

Definition raise {A} (e : exn) : M A := fun w => (Raise e, w).

Definition lift {A} (r : result A) : M A := fun w => (r, w).

(** [try: m except Exception as e: h e] *)
Definition try_except {A} (m : M A) (h : exn -> M A) : M A := fun w =>
  match m w with
  | (Ok a, w') => (Ok a, w')
  | (Raise e, w') => h e w'
  end.

(** Runs [m] and hands its outcome over as a value. *)
Definition attempt {A} (m : M A) : M (result A) := fun w =>
  match m w with
  | (r, w') => (Ok r, w')
  end.

(** [os.getenv(key)] *)
Definition getenv (key : string) : M (option string) := fun w =>
  (Ok (environ w !! key), w).

(** The truth value of what [os.getenv] returned: [None] and the empty
    string are false. *)
Definition truthy (v : option string) : bool :=
  match v with
  | Some s => negb (bool_decide (s = EmptyString))
  | None => false
  end.

(** [datetime.now(timezone.utc)] *)
Definition now_utc : M datetime := fun w =>
  let c := clock w in
  (Ok (Datetime (year c) (month c) (day c) (hour c) (minute c) (second c)
         (microsecond c) (Some 0)), w).

(** The world after the request was logged. *)
Definition logged (w : world) (req : request) : world :=
  World (environ w) (clock w) (remote w) (calls w ++ [req]).


(** Issues a request: it is logged, and the remote service decides. *)
Definition send (req : request) : M response := fun w =>
  let w' := logged w req in
  match remote w req with
  | Answered r => (Ok r, w')
  | Failed e => (Raise e, w')
  end.

(** [response.raise_for_status()] of the requests library. *)
Definition http_error_msg (r : response) : option string :=
  if bool_decide (400 <= status_code r < 500) then
    Some (str_int (status_code r) +:+ " Client Error: " +:+ reason r
          +:+ " for url: " +:+ resp_url r)
  else if bool_decide (500 <= status_code r < 600) then
    Some (str_int (status_code r) +:+ " Server Error: " +:+ reason r
          +:+ " for url: " +:+ resp_url r)
  else None.

Definition raise_for_status (r : response) : M unit :=
  match http_error_msg r with
  | Some msg => raise (Exn HTTPError msg)
  | None => mret tt
  end.

(** [response.json()] *)
Definition json (r : response) : M pyval := lift (json_result r).

(** A field of the JSON payload of a request. *)
Definition payload_field (req : request) (key : string) : option pyval :=
  match req_json req with
  | Some (PDict d) => d !! key
  | _ => None
  end.

(** Runs a computation and keeps the value, or the exception, and the log. *)
Definition run {A} (m : M A) (w : world) : result A := (m w).1.
Definition calls_after {A} (m : M A) (w : world) : list request :=
  calls (m w).2.

End Net.

(** ** The calendar client ([src/cal_api.py]) *)

Module CalApi.
Import Py Net.

Section WithInterpreter.
Context `{Interpreter}.

(** The simplified event built for each booking record. *)
Record event := Event {
  id : pyval;
  title : pyval;
  start_time : pyval;
  end_time : pyval;
  status : pyval;
  attendee_email : string;
  description : pyval;
  location : pyval
}.

Definition json_headers : list (string * string) :=
  [("Content-Type", "application/json")].

(** The dict literal in the body of the [for] loop of
    [get_scheduled_events], for a booking that is a dict: [booking.get(k)]
    is [None] for a missing key, [booking.get(k, v)] is [v]. *)
Definition event_of (user_email : string) (d : gmap string pyval) : event :=
  {| id := default PNone (d !! "id");
     title := default (PStr "Event") (d !! "title");
     start_time := default PNone (d !! "startTime");
     end_time := default PNone (d !! "endTime");
     status := default PNone (d !! "status");
     attendee_email := user_email;
     description := default (PStr EmptyString) (d !! "description");
     location := default (PStr "TBD") (d !! "location") |}.

(** The body of the loop: on a booking that is no dict, [booking.get]
    raises. *)
Definition simplify_event (user_email : string) (booking : pyval)
    : result event :=
  match booking with
  | PDict d => Ok (event_of user_email d)
  | _ => Raise (Exn AttributeError
                  ("'" +:+ type_name booking
                   +:+ "' object has no attribute 'get'"))
  end.

(** The loop itself: the events are appended in order, and the first record
    that raises ends the loop. *)
Fixpoint simplify_events (user_email : string) (bookings : list pyval)
    : result (list event) :=
  match bookings with
  | [] => Ok []
  | booking :: rest =>
      match simplify_event user_email booking with
      | Raise e => Raise e
      | Ok ev =>
          match simplify_events user_email rest with
          | Raise e => Raise e
          | Ok evs => Ok (ev :: evs)
          end
      end
  end.

(** The request of [get_scheduled_events]. *)
Definition list_request (api_key : string) : request :=
  Request GET "https://api.cal.com/v1/bookings" json_headers
    [("apiKey", api_key)] None.

(** [get_scheduled_events]. The three handlers print a line and return the
    empty list; the printed line is not part of the model. *)
Definition get_scheduled_events (user_email : string) : M (list event) :=
  api_key ← getenv "CAL_API_KEY";
  if negb (truthy api_key) then
    raise (Exn ValueError "CAL_API_KEY not found in environment variables")
  else
    try_except
      (response ← send (list_request (default EmptyString api_key));
       raise_for_status response;;
       data ← json response;
       bookings ← lift (py_get data "bookings" (PList []));
       records ← lift (py_iter bookings);
       lift (simplify_events user_email records))
      (fun e =>
         if is_RequestException e then mret []
         else if is_KeyError e then mret []
         else mret []).

(** The end time computed by [book_event]:
<<
    start_dt = datetime.fromisoformat(start_time.replace('Z', '+00:00'))
    end_dt = start_dt + timedelta(minutes=30)
    end_time = end_dt.isoformat().replace('+00:00', 'Z')
>> *)
Definition booking_end_time (start_time : string) : result string :=
  match fromisoformat (replace "Z" "+00:00" start_time) with
  | Raise e => Raise e
  | Ok start_dt =>
      match add_minutes start_dt 30 with
      | Raise e => Raise e
      | Ok end_dt => Ok (replace "+00:00" "Z" (isoformat end_dt))
      end
  end.

(** The payload of the booking request. *)
Definition booking_data (event_type_id : Z)
    (start_time end_time attendee_name user_email event_title : string)
    : pyval :=
  PDict (list_to_map [
    ("eventTypeId", PInt event_type_id);
    ("start", PStr start_time);
    ("end", PStr end_time);
    ("responses", PDict (list_to_map [("name", PStr attendee_name);
                                      ("email", PStr user_email)]));
    ("metadata", PDict ∅);
    ("timeZone", PStr "UTC");
    ("language", PStr "en");
    ("title", PStr event_title);
    ("description", PStr ("Booked via API: " +:+ event_title));
    ("status", PStr "PENDING")]).

(** The request of [book_event]: the key travels in the URL, the payload as
    JSON. *)
Definition booking_request (api_key : string) (payload : pyval) : request :=
  Request POST ("https://api.cal.com/v1/bookings?apiKey=" +:+ api_key)
    json_headers [] (Some payload).

(** The text returned after a booking went through. *)
Definition booking_success (event_title : string) (booking_id : pyval)
    (start_time : string) : string :=
  "✅ Event '" +:+ event_title +:+ "' successfully booked! Booking ID: "
  +:+ py_str booking_id +:+ ", Start time: " +:+ start_time.

(** The text returned when the remote service reports
    [no_available_users_found_error]. *)
Definition owner_unavailable : string :=
  "❌ Booking failed: You are not available at this time slot. Please choose a different time when you're free.".

(** The branch of [book_event] for a 400 response, with its bare [except]. *)
Definition booking_bad_request (r : response) : string :=
  match json_result r with
  | Raise _ => "❌ Booking failed: Bad request"
  | Ok error_response =>
      match py_get error_response "message" (PStr "Bad request") with
      | Raise _ => "❌ Booking failed: Bad request"
      | Ok error_detail =>
          match py_in "no_available_users_found_error" error_detail with
          | Raise _ => "❌ Booking failed: Bad request"
          | Ok true => owner_unavailable
          | Ok false => "❌ Booking failed: " +:+ py_str error_detail
          end
      end
  end.

(** The handlers of the [try] around the booking request. [resp] is the
    variable [response], unbound when [requests.post] itself raised. *)
Definition booking_handlers (resp : option response) (e : exn) : M string :=
  if is_HTTPError e then
    match resp with
    | None =>
        raise (Exn OtherException
                 "local variable 'response' referenced before assignment")
    | Some r =>
        if status_code r =? 400 then mret (booking_bad_request r)
        else if status_code r =? 401 then
          mret "❌ Booking failed: Invalid API key or unauthorized access"
        else if status_code r =? 404 then
          mret "❌ Booking failed: Event type not found. Check your CAL_EVENT_TYPE_ID"
        else
          mret ("❌ Booking failed: HTTP " +:+ str_int (status_code r)
                +:+ " - " +:+ exn_msg e)
    end
  else if is_RequestException e then
    mret ("❌ Booking failed: Network error - " +:+ exn_msg e)
  else if is_ValueError e then
    mret ("❌ Booking failed: Invalid data format - " +:+ exn_msg e)
  else
    mret ("❌ Booking failed: Unexpected error - " +:+ exn_msg e).

(** [book_event] *)
Definition book_event (start_time user_email event_title : string)
    : M string :=
  api_key ← getenv "CAL_API_KEY";
  event_type_id ← getenv "CAL_EVENT_TYPE_ID";
  if negb (truthy api_key) then
    mret "Error: CAL_API_KEY not found in environment variables"
  else if negb (truthy event_type_id) then
    mret "Error: CAL_EVENT_TYPE_ID not found in environment variables"
  else
    let attendee_name :=
      str_title (replace "." " " (split_head "@" user_email)) in
    match booking_end_time start_time with
    | Raise _ => mret "❌ Booking failed: Invalid start time format"
    | Ok end_time =>
        match int_of_str (default EmptyString event_type_id) with
        | None =>
            raise (Exn ValueError
                     ("invalid literal for int() with base 10: '"
                      +:+ default EmptyString event_type_id +:+ "'"))
        | Some etid =>
            let payload :=
              booking_data etid start_time end_time attendee_name
                user_email event_title in
            sent ← attempt (send (booking_request (default EmptyString api_key) payload));
            match sent with
            | Raise e => booking_handlers None e
            | Ok response =>
                try_except
                  (raise_for_status response;;
                   booking_result ← json response;
                   booking_id ← lift (py_get booking_result "id" (PStr "Unknown"));
                   mret (booking_success event_title booking_id start_time))
                  (booking_handlers (Some response))
            end
        end
    end.

(** The request [book_event] sends. *)
Definition booking_request_of (key : string) (etid : Z)
    (start_time end_time user_email event_title : string) : request :=
  booking_request key
    (booking_data etid start_time end_time
       (str_title (replace "." " " (split_head "@" user_email)))
       user_email event_title).

(** The configuration under which [book_event] gets as far as its request:
    both variables set, the event type an integer, the start time accepted
    with [end_time] as the computed end. *)
Definition booking_ready (w : world) (key : string) (etid : Z)
    (start_time end_time : string) : Prop :=
  environ w !! "CAL_API_KEY" = Some key /\ key <> EmptyString
  /\ (exists t, environ w !! "CAL_EVENT_TYPE_ID" = Some t
               /\ t <> EmptyString /\ int_of_str t = Some etid)
  /\ booking_end_time start_time = Ok end_time.

(** The handlers of the [try] around the cancellation request. In the 400
    branch nothing guards [response.json().get(...)]: what it raises leaves
    [cancel_event]. *)
Definition cancel_handlers (booking_id : Z) (resp : option response) (e : exn)
    : M string :=
  if is_HTTPError e then
    match resp with
    | None =>
        raise (Exn OtherException
                 "local variable 'response' referenced before assignment")
    | Some r =>
        if status_code r =? 400 then
          error_response ← json r;
          error_detail ← lift (py_get error_response "message" (PStr "Bad request"));
          mret ("❌ Cancellation failed: " +:+ py_str error_detail)
        else if status_code r =? 401 then
          mret "❌ Cancellation failed: Invalid API key or unauthorized access"
        else if status_code r =? 404 then
          mret ("❌ Cancellation failed: Booking " +:+ str_int booking_id
                +:+ " not found")
        else
          mret ("❌ Cancellation failed: HTTP " +:+ str_int (status_code r)
                +:+ " - " +:+ exn_msg e)
    end
  else if is_RequestException e then
    mret ("❌ Cancellation failed: Network error - " +:+ exn_msg e)
  else
    mret ("❌ Cancellation failed: Unexpected error - " +:+ exn_msg e).

(** The request of [cancel_event]. *)
Definition cancel_request (api_key : string) (booking_id : Z)
    (cancellation_reason : string) : request :=
  Request DELETE
    ("https://api.cal.com/v1/bookings/" +:+ str_int booking_id +:+ "/cancel")
    json_headers
    [("apiKey", api_key); ("cancellationReason", cancellation_reason)] None.

(** [cancel_event] *)
Definition cancel_event (booking_id : Z) (cancellation_reason : string)
    : M string :=
  api_key ← getenv "CAL_API_KEY";
  if negb (truthy api_key) then
    mret "Error: CAL_API_KEY not found in environment variables"
  else
    sent ← attempt (send (cancel_request (default EmptyString api_key)
                            booking_id cancellation_reason));
    match sent with
    | Raise e => cancel_handlers booking_id None e
    | Ok response =>
        try_except
          (raise_for_status response;;
           mret ("✅ Booking " +:+ str_int booking_id
                 +:+ " successfully cancelled. Reason: "
                 +:+ cancellation_reason))
          (cancel_handlers booking_id (Some response))
    end.

End WithInterpreter.
End CalApi.

(** ** The tools ([src/main.py]) *)

Module Main.
Import Py Net CalApi.

Section WithInterpreter.
Context `{Interpreter}.

(** [os.getenv(key, default)] *)
Definition getenv_default (key dflt : string) : M string :=
  v ← getenv key; mret (default dflt v).

(** [list_user_events] *)
Definition list_user_events : M (list event) :=
  default_email ← getenv_default "DEFAULT_USER_EMAIL" "song.wd@icloud.com";
  get_scheduled_events default_email.

(** [create_calendar_booking] *)
Definition create_calendar_booking
    (start_time attendee_email meeting_title : string) : M string :=
  book_event start_time attendee_email meeting_title.

(** The default of the parameter [cancellation_reason]. *)
Definition default_cancellation_reason : string := "Meeting cancelled by user".

(** The text returned for an identifier that is no integer, with the
    bytes the source file has in front of it. *)
Definition invalid_booking_id (booking_identifier : string) : string :=
  "âŒ Invalid booking ID: '" +:+ booking_identifier
  +:+ "'. Please provide a valid numeric booking ID.".

(** [cancel_calendar_booking]
<<
    try:
        booking_id = int(booking_identifier)
    except ValueError:
        return f"... Invalid booking ID: '{booking_identifier}'. ..."
    return cancel_event(booking_id, cancellation_reason)
>> *)
Definition cancel_calendar_booking (booking_identifier : string)
    (cancellation_reason : string) : M string :=
  match int_of_str booking_identifier with
  | None => mret (invalid_booking_id booking_identifier)
  | Some booking_id => cancel_event booking_id cancellation_reason
  end.

(** [get_current_datetime] *)
Definition get_current_datetime : M string :=
  now ← now_utc;
  mret ("Current date and time: " +:+ isoformat now +:+ "
    
Formatted: " +:+ strftime now "%A, %B %d, %Y at %I:%M %p UTC" +:+ "
Date only: " +:+ strftime now "%Y-%m-%d" +:+ "
    
IMPORTANT: All meeting bookings must be AFTER this current time.
When user says " +:+ dquote +:+ "tomorrow" +:+ dquote +:+ ", add 1 day to " +:+ strftime now "%Y-%m-%d" +:+ ".
When user says " +:+ dquote +:+ "next week" +:+ dquote +:+ ", add 7 days to current date.
Always ensure the booking time is in the future!").

End WithInterpreter.
End Main.

(** ** The conversation loop

    [src/main.py] builds the loop as
    [AgentExecutor(agent=agent, tools=tools, handle_parsing_errors=True,
    max_iterations=3, return_intermediate_steps=True)]; the executor itself is
    code of the LangChain library. *)

Module Agent.
Import Py Net CalApi Main History.

(** A tool invocation the model asks for: one of the four tools of [tools]
    with its arguments, or a name that is no tool. *)
Inductive tool_call :=
| Call_list_user_events
| Call_create_calendar_booking (start_time attendee_email meeting_title : string)
| Call_cancel_calendar_booking (booking_identifier : string)
    (cancellation_reason : option string)
| Call_get_current_datetime
| Call_unknown (name : string).

(** What a tool returns to the loop. *)
Inductive observation :=
| Events (evs : list event)
| Text (s : string).

(** The reply of the model to one submission: tool requests, or a final
    answer with no further tool request. *)
Inductive llm_reply :=
| ToolRequests (requests : list tool_call)
| FinalAnswer (text : string).

(** The model: from the utterance, the bounded history and the tool results
    so far to a reply, or to an exception of the transport or of the parser. *)
Definition llm_model : Type :=
  string -> list message -> list (tool_call * observation) -> result llm_reply.

(** The value of [agent_executor.invoke]: the output text and the
    intermediate steps; [iterations_run] counts the rounds of tool execution
    and [degraded] tells that the cap ended the loop. *)
Record agent_result := AgentResult {
  output : string;
  intermediate_steps : list (tool_call * observation);
  iterations_run : nat;
  degraded : bool
}.

(** [max_iterations=3] *)
Definition max_iterations : nat := 3.

Section WithModel.
Context `{Interpreter} (llm : llm_model).

(** Executes one requested tool against the tool registry. *)
Definition run_tool (c : tool_call) : M observation :=
  match c with
  | Call_list_user_events => evs ← list_user_events; mret (Events evs)
  | Call_create_calendar_booking s a t =>
      r ← create_calendar_booking s a t; mret (Text r)
  | Call_cancel_calendar_booking b r =>
      r ← cancel_calendar_booking b (default default_cancellation_reason r);
      mret (Text r)
  | Call_get_current_datetime => r ← get_current_datetime; mret (Text r)
  | Call_unknown name =>
      mret (Text (name +:+ " is not a valid tool, try one of [list_user_events, create_calendar_booking, cancel_calendar_booking, get_current_datetime]."))
  end.

(** The requested tools run one at a time, in order. *)
Fixpoint run_tools (cs : list tool_call) : M (list (tool_call * observation)) :=
  match cs with
  | [] => mret []
  | c :: rest =>
      o ← run_tool c;
      os ← run_tools rest;
      mret ((c, o) :: os)
  end.

(** Modelled from the spec: the body of the executor's loop is missing from
    the sources. The spec: submit the history, the utterance and the tool
    results to the model; if the reply requests tool invocations, execute
    each, collect the results and resubmit; repeat until the model returns a
    final answer or the iteration cap is reached; on reaching the cap without
    a final answer, return the output available then. [fuel] bounds the
    unfolding of the [while]; [None] means the fuel ran out before the loop
    ended. *)
Fixpoint executor_loop (fuel : nat) (input : string) (history : list message)
    (iterations : nat) (steps : list (tool_call * observation))
    : M (option agent_result) :=
  match fuel with
  | O => mret None
  | S fuel' =>
      if decide (iterations < max_iterations)%nat then
        reply ← lift (llm input history steps);
        match reply with
        | FinalAnswer text =>
            mret (Some (AgentResult text steps iterations false))
        | ToolRequests cs =>
            new_steps ← run_tools cs;
            executor_loop fuel' input history (S iterations) (steps ++ new_steps)
        end
      else
        mret (Some (AgentResult "Agent stopped due to max iterations."
                      steps iterations true))
  end.

(** Modelled from the spec: [agent_executor.invoke], the loop from zero
    iterations and no tool result, unfolded once more than the cap. *)
Definition invoke (input : string) (history : list message) : M agent_result :=
  r ← executor_loop (S max_iterations) input history 0 [];
  match r with
  | Some res => mret res
  | None => raise (Exn OtherException "the loop did not end")
  end.

(** [process_user_message_with_steps] of [src/app.py]: the exceptions of the
    invocation become the apology. The progress banners are output only. *)
Definition process_user_message_with_steps (st : session_state)
    (user_input : string) : M string :=
  try_except
    (response ← invoke user_input (chat_history st);
     mret (output response))
    (fun _ =>
       mret "I apologize, but I encountered an error processing your request. Please try again.").

End WithModel.
End Agent.

(** ** An interpreter for running the model

    The ASCII part of the library functions left to the interpreter, enough
    to evaluate the definitions above on concrete inputs. *)

Module Reference.
Import Py.

Definition is_space (c : ascii) : bool :=
  let n := nat_of_ascii c in
  bool_decide (n = 32 \/ 9 <= n <= 13)%nat.

Fixpoint lstrip (s : string) : string :=
  match s with
  | String c s' => if is_space c then lstrip s' else s
  | EmptyString => EmptyString
  end.

(** The digits of an integer literal, with single underscores between
    digits; [after_digit] tells whether the previous character was a digit,
    and trailing white space ends the literal. *)
Fixpoint read_int (after_digit : bool) (acc : Z) (s : string) : option Z :=
  match s with
  | EmptyString => if after_digit then Some acc else None
  | String c s' =>
      match digit_val c with
      | Some d => read_int true (10 * acc + d) s'
      | None =>
          if Ascii.eqb c "_" then
            (if after_digit then
               match s' with
               | String c' _ =>
                   if bool_decide (is_Some (digit_val c'))
                   then read_int false acc s' else None
               | EmptyString => None
               end
             else None)
          else if after_digit && bool_decide (lstrip s = EmptyString)
          then Some acc else None
      end
  end.

(** [int(s)] on ASCII text: optional white space, an optional sign, digits. *)
Definition ascii_int (s : string) : option Z :=
  match lstrip s with
  | String c s' =>
      if Ascii.eqb c "-" then Z.opp <$> read_int false 0 s'
      else if Ascii.eqb c "+" then read_int false 0 s'
      else read_int false 0 (String c s')
  | EmptyString => None
  end.

Definition is_lower (c : ascii) : bool :=
  bool_decide (97 <= nat_of_ascii c <= 122)%nat.
Definition is_upper (c : ascii) : bool :=
  bool_decide (65 <= nat_of_ascii c <= 90)%nat.
Definition to_upper (c : ascii) : ascii :=
  if is_lower c then ascii_of_nat (nat_of_ascii c - 32) else c.
Definition to_lower (c : ascii) : ascii :=
  if is_upper c then ascii_of_nat (nat_of_ascii c + 32) else c.

(** [s.title()] on ASCII text: a letter that follows a letter is lowered,
    any other letter is raised. *)
Fixpoint ascii_title_from (after_letter : bool) (s : string) : string :=
  match s with
  | EmptyString => EmptyString
  | String c s' =>
      let letter := is_lower c || is_upper c in
      String (if after_letter then to_lower c else to_upper c)
        (ascii_title_from letter s')
  end.

Definition ascii_title (s : string) : string := ascii_title_from false s.

(** One directive of [strftime], for the directives the program uses and
    their numeric neighbours; an unknown directive is left as it is. *)
Definition weekday_name (d : datetime) : string :=
  nth (Z.to_nat ((toordinal d + 6) mod 7))
    ["Monday"; "Tuesday"; "Wednesday"; "Thursday"; "Friday"; "Saturday";
     "Sunday"] EmptyString.

Definition month_name (d : datetime) : string :=
  nth (Z.to_nat (month d))
    [EmptyString; "January"; "February"; "March"; "April"; "May"; "June";
     "July"; "August"; "September"; "October"; "November"; "December"]
    EmptyString.

Definition directive (d : datetime) (c : ascii) : string :=
  if Ascii.eqb c "A" then weekday_name d
  else if Ascii.eqb c "B" then month_name d
  else if Ascii.eqb c "d" then pad2 (day d)
  else if Ascii.eqb c "m" then pad2 (month d)
  else if Ascii.eqb c "Y" then pad4 (year d)
  else if Ascii.eqb c "H" then pad2 (hour d)
  else if Ascii.eqb c "I" then
    pad2 (if hour d mod 12 =? 0 then 12 else hour d mod 12)
  else if Ascii.eqb c "M" then pad2 (minute d)
  else if Ascii.eqb c "S" then pad2 (second d)
  else if Ascii.eqb c "p" then (if hour d <? 12 then "AM" else "PM")
  else if Ascii.eqb c "%" then "%"
  else String "%" (String c EmptyString).

(** [d.strftime(fmt)] *)
Fixpoint format_time (d : datetime) (fmt : string) : string :=
  match fmt with
  | EmptyString => EmptyString
  | String c rest =>
      if Ascii.eqb c "%" then
        match rest with
        | String k rest' => directive d k +:+ format_time d rest'
        | EmptyString => "%"
        end
      else String c (format_time d rest)
  end.

(** The time of day [HH[:MM[:SS[.fff[fff]]]]] at the head of a string: hour,
    minute, second, microsecond and the rest. *)
Definition parse_clock (s : string) : option (Z * Z * Z * Z * string) :=
  '(h, s1) ← read_digits 2 0 s;
  match expect ":" s1 with
  | None => Some (h, 0, 0, 0, s1)
  | Some s2 =>
      '(mi, s3) ← read_digits 2 0 s2;
      match expect ":" s3 with
      | None => Some (h, mi, 0, 0, s3)
      | Some s4 =>
          '(sec, s5) ← read_digits 2 0 s4;
          match expect "." s5 with
          | None => Some (h, mi, sec, 0, s5)
          | Some s6 =>
              match read_digits 6 0 s6 with
              | Some (us, s7) => Some (h, mi, sec, us, s7)
              | None =>
                  '(ms, s7) ← read_digits 3 0 s6;
                  Some (h, mi, sec, ms * 1000, s7)
              end
          end
      end
  end.

(** The offset at the end of an ISO string: nothing for a naive value, or a
    sign and [HH:MM[:SS[.ffffff]]], in microseconds. *)
Definition parse_offset (s : string) : option (option Z) :=
  match s with
  | EmptyString => Some None
  | String c s1 =>
      sign ← (if Ascii.eqb c "+" then Some 1
              else if Ascii.eqb c "-" then Some (-1) else None);
      '(hh, s2) ← read_digits 2 0 s1;
      s3 ← expect ":" s2;
      '(mm, s4) ← read_digits 2 0 s3;
      '(ss, s6) ← match expect ":" s4 with
                  | None => Some (0, s4)
                  | Some s5 => read_digits 2 0 s5
                  end;
      '(us, s8) ← match expect "." s6 with
                  | None => Some (0, s6)
                  | Some s7 => read_digits 6 0 s7
                  end;
      if bool_decide (s8 = EmptyString)
      then Some (Some (sign * (((hh * 60 + mm) * 60 + ss) * 1000000 + us)))
      else None
  end.

(** [YYYY-MM-DD], alone or followed by one separator character, the time
    of day and the offset. *)
Definition parse_isoformat (s : string) : option datetime :=
  '(y, s) ← read_digits 4 0 s;
  s ← expect "-" s;
  '(mo, s) ← read_digits 2 0 s;
  s ← expect "-" s;
  '(d, s) ← read_digits 2 0 s;
  match s with
  | EmptyString => Some (Datetime y mo d 0 0 0 0 None)
  | String _ s =>
      '(h, mi, sec, us, s) ← parse_clock s;
      tz ← parse_offset s;
      Some (Datetime y mo d h mi sec us tz)
  end.

(** [datetime.fromisoformat] on the grammar
    [YYYY-MM-DD[*HH[:MM[:SS[.fff[fff]]]][+HH:MM[:SS[.ffffff]]]]]; what is
    read is checked like the constructor of [datetime] checks it. *)
Definition iso_fromisoformat (s : string) : result datetime :=
  match parse_isoformat s with
  | Some dt =>
      if well_formed_b dt then Ok dt
      else Raise (Exn ValueError ("Invalid isoformat string: " +:+ s))
  | None => Raise (Exn ValueError ("Invalid isoformat string: " +:+ s))
  end.

Definition iso_fromisoformat_well_formed (s : string) (dt : datetime) :
  iso_fromisoformat s = Ok dt -> well_formed dt.
Proof.
  unfold iso_fromisoformat, well_formed.
  destruct (parse_isoformat s) as [dt'|]; [|discriminate].
  destruct (well_formed_b dt') eqn:Hwf; [|discriminate].
  intros Hok. injection Hok as <-. exact Hwf.
Defined.

(** A float is shown by its literal, a container by the name of its type. *)
#[export] Instance interpreter : Interpreter := {|
  int_of_str := ascii_int;
  str_title := ascii_title;
  repr_of v := match v with
               | PFloat lit => lit
               | _ => "<" +:+ type_name v +:+ ">"
               end;
  strftime := format_time;
  fromisoformat := iso_fromisoformat;
  fromisoformat_well_formed := iso_fromisoformat_well_formed
|}.

End Reference.

(** ** Concrete worlds

    Environments, remote services and records on which the definitions are
    run. *)

Module Samples.
Import Py Net CalApi.

Definition env_full : gmap string string :=
  {[ "CAL_API_KEY" := "cal_live_key"; "CAL_EVENT_TYPE_ID" := "42" ]}.

Definition env_empty : gmap string string := ∅.

(** 11 July 2025, noon, UTC. *)
Definition noon : datetime := Datetime 2025 7 11 12 0 0 0 None.

(** A remote service that cannot be reached. *)
Definition unreachable : request -> http_outcome :=
  fun _ => Failed (Exn ConnectionError "Connection refused").

(** A remote service that gives the same answer to every request. *)
Definition answering (code : Z) (reason : string) (body : result pyval)
    : request -> http_outcome :=
  fun req => Answered (Response code reason (req_url req) body).

Definition world_of (env : gmap string string)
    (remote : request -> http_outcome) : world :=
  World env noon remote [].

(** Two booking records; the second one lacks title, description and
    location and names an attendee of its own. *)
Definition record1 : gmap string pyval :=
  {[ "id" := PInt 9184891; "title" := PStr "Review";
     "startTime" := PStr "2025-07-15T16:00:00.000Z";
     "endTime" := PStr "2025-07-15T16:30:00.000Z";
     "status" := PStr "ACCEPTED";
     "description" := PStr "Quarterly review";
     "location" := PStr "Room 4" ]}.

Definition record2 : gmap string pyval :=
  {[ "id" := PInt 9184892;
     "startTime" := PStr "2025-07-16T09:00:00.000Z";
     "endTime" := PStr "2025-07-16T09:30:00.000Z";
     "status" := PStr "PENDING";
     "attendee_email" := PStr "guest@example.com" ]}.

Definition bookings_body : pyval :=
  PDict {[ "bookings" := PList [PDict record1; PDict record2] ]}.

Definition not_json : result pyval :=
  Raise (Exn RequestsJSONDecodeError "Expecting value: line 1 column 1 (char 0)").

Definition message_body (msg : string) : result pyval :=
  Ok (PDict {[ "message" := PStr msg ]}).

(** A remote service that accepts every booking under the id 77, one
    whose calendar owner is busy, and one that knows no booking. *)
Definition accepting : request -> http_outcome :=
  answering 201 "Created" (Ok (PDict {[ "id" := PInt 77 ]})).

Definition busy_owner : request -> http_outcome :=
  answering 400 "Bad Request" (message_body "no_available_users_found_error").

Definition not_found : request -> http_outcome :=
  answering 404 "Not Found" (message_body "Booking not found").

End Samples.

(** ** The command-line chat loop ([main] of [src/main.py]) *)

Module Cli.
Import Py Net History Agent.

(** What [input("You: ")] does in one round: it returns a line, or the user
    interrupts it, or the input is at its end and [EOFError] is raised. *)
Inductive stdin_event :=
| Typed (line : string)
| Interrupt
| EndOfFile.

(** Where the loop stands after the events so far: still reading, or left
    by a [break]. *)
Inductive loop_status := Reading | Left.

(** What [main] comes to: [sys.exit(code)] at start-up, or the chat loop
    with its status and the history it holds. *)
Inductive main_outcome :=
| Exit (code : Z)
| Chat (status : loop_status) (chat_history : list message).

Section WithAgent.
(** [str.strip] and [str.lower] of the interpreter, and
    [agent_executor.invoke], by the output it returns. *)
Context (strip lower : string -> string)
        (invoke : string -> list message -> M agent_result).

(** The words that end the chat. *)
Definition quit_words : list string := ["quit"; "exit"; "bye"].

(** The body of the [try] for a line that was read: [None] is the [break].
<<
    user_input = input("You: ").strip()
    if user_input.lower() in ['quit', 'exit', 'bye']: break
    if not user_input: continue
    response = agent_executor.invoke({"input": user_input,
                                      "chat_history": chat_history})
    chat_history.append(HumanMessage(content=user_input))
    chat_history.append(AIMessage(content=response['output']))
    if len(chat_history) > 10: chat_history = chat_history[-10:]
>>
    with the handler [except Exception], which prints and goes on. The
    printed lines are not part of the model. *)
Definition chat_round (line : string) (chat_history : list message)
    : M (option (list message)) :=
  let user_input := strip line in
  if bool_decide (lower user_input ∈ quit_words) then mret None
  else if bool_decide (user_input = EmptyString) then mret (Some chat_history)
  else
    try_except
      (response ← invoke user_input chat_history;
       mret (Some (cli_update chat_history user_input (output response))))
      (fun _ => mret (Some chat_history)).

(** The [while True] loop over the events of the standard input. An
    interrupt is the [break] of [except KeyboardInterrupt]; the [EOFError]
    of an input at its end is caught by [except Exception] and the loop
    goes on. *)
Fixpoint chat_loop (events : list stdin_event) (chat_history : list message)
    : M (loop_status * list message) :=
  match events with
  | [] => mret (Reading, chat_history)
  | Interrupt :: _ => mret (Left, chat_history)
  | EndOfFile :: rest => chat_loop rest chat_history
  | Typed line :: rest =>
      r ← chat_round line chat_history;
      match r with
      | None => mret (Left, chat_history)
      | Some h => chat_loop rest h
      end
  end.

(** [main]: the three checks of the environment, each a [sys.exit(1)], then
    the loop from the empty history. *)
Definition main (events : list stdin_event) : M main_outcome :=
  openai ← getenv "OPENAI_API_KEY";
  if negb (truthy openai) then mret (Exit 1) else
  cal_key ← getenv "CAL_API_KEY";
  if negb (truthy cal_key) then mret (Exit 1) else
  event_type ← getenv "CAL_EVENT_TYPE_ID";
  if negb (truthy event_type) then mret (Exit 1) else
  r ← chat_loop events [];
  mret (Chat r.1 r.2).

End WithAgent.
End Cli.

(** ** The web UI ([src/app.py]) *)

Module App.
Import Py Net History Agent.

(** [', '.join(l)] *)
Fixpoint join_comma (l : list string) : string :=
  match l with
  | [] => EmptyString
  | [x] => x
  | x :: rest => x +:+ ", " +:+ join_comma rest
  end.

Definition required_vars : list string :=
  ["OPENAI_API_KEY"; "CAL_API_KEY"; "CAL_EVENT_TYPE_ID"].

(** [[var for var in required_vars if not os.getenv(var)]] *)
Definition missing_vars (env : gmap string string) : list string :=
  filter (fun var => truthy (env !! var) = false) required_vars.

(** [check_environment]: [Ok true] is [return True]; the raised exception
    is [st.stop()] after the error banner, whose text it carries. *)
Definition check_environment : M bool := fun w =>
  match missing_vars (environ w) with
  | [] => (Ok true, w)
  | missing =>
      (Raise (Exn OtherException
                ("❌ Missing environment variables: " +:+ join_comma missing)),
       w)
  end.

Section WithModel.
Context `{Interpreter} (llm : llm_model).

(** [process_user_message]: the invocation, its output, and the apology for
    every exception. The placeholder banners are output only. *)
Definition process_user_message (st : session_state) (user_input : string)
    : M string :=
  try_except
    (response ← invoke llm user_input (chat_history st);
     mret (output response))
    (fun _ =>
       mret "I apologize, but I encountered an error processing your request. Please try again.").

(** One submission of the chat input in [main] of [src/app.py]:
<<
    response = process_user_message_with_steps(prompt, thinking_container)
    update_chat_history(prompt, response)
>> *)
Definition submit (st : session_state) (prompt : string) : M session_state :=
  response ← process_user_message_with_steps llm st prompt;
  mret (update_chat_history st prompt response).

(** The submissions of a whole session, one after the other. *)
Fixpoint submit_all (st : session_state) (prompts : list string)
    : M session_state :=
  match prompts with
  | [] => mret st
  | p :: rest => st' ← submit st p; submit_all st' rest
  end.

(** The replies of a session: what [process_user_message_with_steps]
    returns at each submission, on the session state and in the world the
    earlier submissions left. *)
Fixpoint replies_of (st : session_state) (prompts : list string) (w : world)
    : list string :=
  match prompts with
  | [] => []
  | p :: rest =>
      match process_user_message_with_steps llm st p w with
      | (Ok response, w') =>
          response :: replies_of (update_chat_history st p response) rest w'
      | (Raise _, _) => []
      end
  end.

End WithModel.

(** The displayed entries as the messages they stand for. *)
Definition as_history (entries : list (string * string)) : list message :=
  (fun e => if bool_decide (e.1 = "user") then HumanMessage e.2
            else AIMessage e.2) <$> entries.

(** The messages of a sequence of turns, in order. *)
Definition transcript (turns : list (string * string)) : list message :=
  turns ≫= (fun t => [HumanMessage t.1; AIMessage t.2]).

(** The entries displayed for a sequence of turns, in order. *)
Definition displayed (turns : list (string * string))
    : list (string * string) :=
  turns ≫= (fun t => [("user", t.1); ("assistant", t.2)]).

End App.

(** ** ASCII text functions for running the chat loop *)

Module ReferenceText.
Import Reference.

Fixpoint string_rev_onto (acc s : string) : string :=
  match s with
  | EmptyString => acc
  | String c s' => string_rev_onto (String c acc) s'
  end.

Definition string_rev (s : string) : string := string_rev_onto EmptyString s.

(** [s.strip()] on ASCII white space. *)
Definition ascii_strip (s : string) : string :=
  string_rev (lstrip (string_rev (lstrip s))).

(** [s.lower()] on ASCII letters. *)
Fixpoint ascii_lower (s : string) : string :=
  match s with
  | EmptyString => EmptyString
  | String c s' => String (to_lower c) (ascii_lower s')
  end.

End ReferenceText.

(** ** Views of events and requests used in the statements *)

Module Views.
Import Py Net CalApi.

(** An event with another attendee e-mail and the same remote fields. *)
Definition with_attendee (user_email : string) (ev : event) : event :=
  {| id := id ev; title := title ev; start_time := start_time ev;
     end_time := end_time ev; status := status ev;
     attendee_email := user_email;
     description := description ev; location := location ev |}.

(** [isinstance(v, dict)] *)
Definition is_dict (v : pyval) : bool :=
  match v with PDict _ => true | _ => false end.

(** [c not in s] for a character [c]. *)
Fixpoint lacks (c : ascii) (s : string) : bool :=
  match s with
  | EmptyString => true
  | String c' s' => negb (Ascii.eqb c' c) && lacks c s'
  end.

End Views.

(** ** More concrete worlds *)

Module MoreSamples.
Import Py Net CalApi History Agent Samples.

Definition env_all : gmap string string :=
  {[ "OPENAI_API_KEY" := "sk-test"; "CAL_API_KEY" := "cal_live_key";
     "CAL_EVENT_TYPE_ID" := "42" ]}.

Definition env_key_only : gmap string string :=
  {[ "CAL_API_KEY" := "cal_live_key" ]}.

Definition env_named_event_type : gmap string string :=
  {[ "CAL_API_KEY" := "cal_live_key"; "CAL_EVENT_TYPE_ID" := "standup" ]}.

Definition env_with_owner : gmap string string :=
  {[ "CAL_API_KEY" := "cal_live_key";
     "DEFAULT_USER_EMAIL" := "owner@example.com" ]}.

(** A list in which a string stands between the records. *)
Definition mixed_body : pyval :=
  PDict {[ "bookings" := PList [PDict record1; PStr "oops"; PDict record2] ]}.

(** A remote service that answers 400 with a page that is no JSON, one that
    answers 400 with a message, one that answers 200 with no body of
    interest. *)
Definition bad_page : request -> http_outcome :=
  answering 400 "Bad Request" not_json.

Definition refusing (msg : string) : request -> http_outcome :=
  answering 400 "Bad Request" (message_body msg).

Definition plain_ok : request -> http_outcome :=
  answering 200 "OK" (Ok (PDict ∅)).

(** An agent that answers every input, and one that always fails. *)
Definition echo_agent : string -> list message -> M agent_result :=
  fun input _ => mret (AgentResult ("You said: " +:+ input) [] 0 false).

Definition failing_agent : string -> list message -> M agent_result :=
  fun _ _ => raise (Exn OtherException "rate limit").

(** A model that answers at once, and one whose transport fails. *)
Definition ready_model : llm_model :=
  fun _ _ _ => Ok (FinalAnswer "Done.").

Definition broken_model : llm_model :=
  fun _ _ _ => Raise (Exn OtherException "rate limit").

End MoreSamples.

(** * Properties *)

(** ** The conversation history *)

Section SliceFacts.
Import History.
Context {A : Type}.
Implicit Types (l : list A) (n : nat).

Lemma slice_last_drop n l :
  (0 < n)%nat -> slice_last n l = drop (length l - n) l.
Proof.
  intros Hn. unfold slice_last. destruct (decide (n = 0%nat)); [lia|done].
Qed.

Lemma slice_last_length n l :
  (0 < n)%nat -> length (slice_last n l) = (length l `min` n)%nat.
Proof.
  intros Hn. rewrite slice_last_drop by done. rewrite length_drop. lia.
Qed.

End SliceFacts.

Section HistoryCap.
Import History.
Implicit Types (h : list message) (u a : string) (cap : nat).

(** Both branches of the length test are one suffix of the extended list. *)
Lemma append_and_limit_drop cap h u a :
  (0 < cap)%nat ->
  append_and_limit cap h u a =
    drop (length h + 2 - cap) (h ++ [HumanMessage u; AIMessage a]).
Proof.
  intros Hc. unfold append_and_limit. rewrite <- app_assoc. simpl.
  assert (Hlen : length (h ++ [HumanMessage u; AIMessage a])
                 = (length h + 2)%nat)
    by (rewrite length_app; simpl; lia).
  destruct (decide _) as [Hlt|Hge].
  - rewrite slice_last_drop by done. by rewrite Hlen.
  - rewrite Hlen in Hge.
    replace (length h + 2 - cap)%nat with 0%nat by lia. done.
Qed.

Lemma append_and_limit_length cap h u a :
  (0 < cap)%nat ->
  length (append_and_limit cap h u a) = ((length h + 2) `min` cap)%nat.
Proof.
  intros Hc. rewrite append_and_limit_drop by done.
  rewrite length_drop, length_app. simpl. lia.
Qed.

Lemma ui_session_bound st turns :
  (length (chat_history st) <= 20)%nat ->
  (length (chat_history (ui_session st turns)) <= 20)%nat.
Proof.
  revert st. induction turns as [|t turns IH]; intros st Hst; [done|].
  simpl. apply IH. simpl. rewrite append_and_limit_length; lia.
Qed.

Lemma cli_session_bound h turns :
  (length h <= 10)%nat -> (length (cli_session h turns) <= 10)%nat.
Proof.
  revert h. induction turns as [|t turns IH]; intros h Hh; [done|].
  simpl. apply IH. unfold cli_update. rewrite append_and_limit_length; lia.
Qed.

(** C1. After every update of the history, in the web UI (cap 20) and in
    the CLI loop (cap 10), the history is the extended history without its
    oldest entries: the suffix that starts [length + 2 - cap] entries in, in
    the original order. Its length is the smaller of the extended length and
    the cap, so it never exceeds the cap and is exactly the cap whenever the
    extended history is longer; and every session that starts empty stays
    within the cap. *)
Theorem history_never_exceeds_cap (st : session_state) (h : list message)
    (u a : string) (turns : list (string * string)) :
  (let h' := chat_history (update_chat_history st u a) in
   let ext := chat_history st ++ [HumanMessage u; AIMessage a] in
   h' = drop (length ext - 20) ext
   /\ length h' = (length ext `min` 20)%nat
   /\ (length h' <= 20)%nat)
  /\ (let h' := cli_update h u a in
      let ext := h ++ [HumanMessage u; AIMessage a] in
      h' = drop (length ext - 10) ext
      /\ length h' = (length ext `min` 10)%nat
      /\ (length h' <= 10)%nat)
  /\ (length (chat_history (ui_session initial_state turns)) <= 20)%nat
  /\ (length (cli_session [] turns) <= 10)%nat.
Proof.
  assert (Hext : forall l : list message,
             length (l ++ [HumanMessage u; AIMessage a]) = (length l + 2)%nat)
    by (intros l; rewrite length_app; simpl; lia).
  repeat split.
  - simpl. rewrite Hext. apply append_and_limit_drop. lia.
  - simpl. rewrite Hext. apply append_and_limit_length. lia.
  - simpl. rewrite append_and_limit_length; lia.
  - rewrite Hext. apply append_and_limit_drop. lia.
  - rewrite Hext. apply append_and_limit_length. lia.
  - unfold cli_update. rewrite append_and_limit_length; lia.
  - apply ui_session_bound. simpl. lia.
  - apply cli_session_bound. simpl. lia.
Qed.

End HistoryCap.

(** ** The calendar client: listing *)

Section Listing.
Import Py Net CalApi.

(** Unfolds the monad down to functions of the world. *)
Ltac unfold_m :=
  unfold run, calls_after, mbind, mret, M_bind, M_ret, try_except, attempt,
    raise, lift, getenv, send, json, raise_for_status in *.

Lemma truthy_Some (key : string) :
  key <> EmptyString -> truthy (Some key) = true.
Proof.
  intros Hk. unfold truthy. by rewrite bool_decide_eq_false_2.
Qed.

Lemma http_error_msg_none (r : response) :
  ~ (400 <= status_code r < 600) -> http_error_msg r = None.
Proof.
  intros Hs. unfold http_error_msg.
  rewrite !bool_decide_eq_false_2 by lia. done.
Qed.

Lemma http_error_msg_some (r : response) :
  400 <= status_code r < 600 -> exists msg, http_error_msg r = Some msg.
Proof.
  intros Hs. unfold http_error_msg.
  destruct (bool_decide (400 <= status_code r < 500)) eqn:E1; [eauto|].
  apply bool_decide_eq_false in E1.
  rewrite bool_decide_eq_true_2 by lia. eauto.
Qed.

Lemma simplify_events_dicts (user_email : string)
    (records : list (gmap string pyval)) :
  simplify_events user_email (PDict <$> records)
  = Ok (event_of user_email <$> records).
Proof.
  induction records as [|d records IH]; [done|].
  simpl. unfold fmap in IH. rewrite IH. done.
Qed.

Lemma simplify_events_attendee (user_email : string) (bookings : list pyval) :
  forall evs, simplify_events user_email bookings = Ok evs ->
    Forall (fun ev => attendee_email ev = user_email) evs.
Proof.
  induction bookings as [|b bookings IH]; intros evs Hevs; simpl in Hevs.
  - inversion Hevs. constructor.
  - destruct (simplify_event user_email b) as [ev|e] eqn:Eb; [|done].
    destruct (simplify_events user_email bookings) as [evs'|e]; [|done].
    inversion Hevs; subst. constructor; [|by apply IH].
    unfold simplify_event in Eb. destruct b; try done.
    by inversion Eb.
Qed.

(** With the key configured, the call returns a list, whatever happens. *)
Lemma get_scheduled_events_returns (w : world) (user_email key : string) :
  environ w !! "CAL_API_KEY" = Some key -> key <> EmptyString ->
  exists evs, run (get_scheduled_events user_email) w = Ok evs
    /\ (evs = [] \/
        exists r d records,
          remote w (list_request key) = Answered r
          /\ http_error_msg r = None
          /\ json_result r = Ok (PDict d)
          /\ py_iter (default (PList []) (d !! "bookings")) = Ok records
          /\ simplify_events user_email records = Ok evs).
Proof.
  intros Hkey Hne. unfold get_scheduled_events. unfold_m.
  rewrite Hkey, (truthy_Some _ Hne). simpl.
  destruct (remote w (list_request key)) as [r|e] eqn:Hrem.
  2:{ exists []. split; [|by left].
      by destruct (is_RequestException e), (is_KeyError e). }
  destruct (http_error_msg r) as [msg|] eqn:Hmsg; simpl.
  { exists []. by split; [|left]. }
  destruct (json_result r) as [v|e] eqn:Hjson; simpl.
  2:{ exists []. split; [|by left].
      by destruct (is_RequestException e), (is_KeyError e). }
  destruct v as [| | | | |l|d]; simpl;
    try (exists []; by split; [|left]).
  destruct (py_iter (default (PList []) (d !! "bookings")))
    as [records|e] eqn:Hit; simpl.
  2:{ exists []. split; [|by left].
      by destruct (is_RequestException e), (is_KeyError e). }
  destruct (simplify_events user_email records) as [evs|e] eqn:Hev; simpl.
  2:{ exists []. split; [|by left].
      by destruct (is_RequestException e), (is_KeyError e). }
  exists evs. split; [done|]. right. by exists r, d, records.
Qed.

(** C2, as amended. With [CAL_API_KEY] configured, [get_scheduled_events]
    never raises: it returns a list, and the list is empty when the
    transport fails, when the status is an error (the authorization failures
    401 and 403 among them), when the body is no JSON and when the body is
    no object. Without the key it raises [ValueError] and sends nothing. *)
Theorem list_events_degrades_to_empty (w : world) (user_email key : string) :
  environ w !! "CAL_API_KEY" = Some key -> key <> EmptyString ->
  (exists evs, run (get_scheduled_events user_email) w = Ok evs)
  /\ (forall e, remote w (list_request key) = Failed e ->
        run (get_scheduled_events user_email) w = Ok [])
  /\ (forall r, remote w (list_request key) = Answered r ->
        400 <= status_code r < 600 ->
        run (get_scheduled_events user_email) w = Ok [])
  /\ (forall r e, remote w (list_request key) = Answered r ->
        json_result r = Raise e ->
        run (get_scheduled_events user_email) w = Ok [])
  /\ (forall r v, remote w (list_request key) = Answered r ->
        json_result r = Ok v -> (forall d, v <> PDict d) ->
        run (get_scheduled_events user_email) w = Ok [])
  /\ (forall w', truthy (environ w' !! "CAL_API_KEY") = false ->
        run (get_scheduled_events user_email) w'
        = Raise (Exn ValueError "CAL_API_KEY not found in environment variables")
        /\ calls_after (get_scheduled_events user_email) w' = calls w').
Proof.
  intros Hkey Hne.
  destruct (get_scheduled_events_returns w user_email key Hkey Hne)
    as (evs & Hrun & Hcases).
  split; [by exists evs|].
  assert (Hwhen : evs <> [] -> exists r d,
             remote w (list_request key) = Answered r
             /\ http_error_msg r = None /\ json_result r = Ok (PDict d)).
  { intros Hevs. destruct Hcases as [->|(r & d & records & ? & ? & ? & _)];
      [done|by exists r, d]. }
  assert (Hor : evs = [] \/ evs <> []) by (destruct evs; [by left|by right]).
  assert (Hnokey : forall w', truthy (environ w' !! "CAL_API_KEY") = false ->
            run (get_scheduled_events user_email) w'
            = Raise (Exn ValueError "CAL_API_KEY not found in environment variables")
            /\ calls_after (get_scheduled_events user_email) w' = calls w').
  { intros w' Hw'. unfold get_scheduled_events. unfold_m. by rewrite Hw'. }
  split; [|split; [|split; [|split; [|exact Hnokey]]]].
  - intros e He. destruct Hor as [->|Hevs]; [done|].
    destruct (Hwhen Hevs) as (r & d & Hr & _). congruence.
  - intros r Hr Hs. destruct Hor as [->|Hevs]; [done|].
    destruct (Hwhen Hevs) as (r' & d & Hr' & Hmsg & _).
    assert (r' = r) as -> by congruence.
    destruct (http_error_msg_some r Hs) as [msg Hsome]. congruence.
  - intros r e Hr Hj. destruct Hor as [->|Hevs]; [done|].
    destruct (Hwhen Hevs) as (r' & d & Hr' & _ & Hj').
    assert (r' = r) as -> by congruence. congruence.
  - intros r v Hr Hj Hv. destruct Hor as [->|Hevs]; [done|].
    destruct (Hwhen Hevs) as (r' & d & Hr' & _ & Hj').
    assert (r' = r) as -> by congruence.
    rewrite Hj in Hj'. inversion Hj'. by destruct (Hv d).
Qed.

(** C7. For a successful list response whose [bookings] hold N records,
    [get_scheduled_events] returns N events, the i-th built from the i-th
    record field by field: a missing title becomes "Event", a missing
    description the empty string and a missing location "TBD". *)
Theorem list_events_maps_each_record (w : world) (user_email key : string)
    (r : response) (d : gmap string pyval)
    (records : list (gmap string pyval)) :
  environ w !! "CAL_API_KEY" = Some key -> key <> EmptyString ->
  remote w (list_request key) = Answered r ->
  ~ (400 <= status_code r < 600) ->
  json_result r = Ok (PDict d) ->
  d !! "bookings" = Some (PList (PDict <$> records)) ->
  exists evs,
    run (get_scheduled_events user_email) w = Ok evs
    /\ length evs = length records
    /\ forall i rec, records !! i = Some rec ->
         exists ev, evs !! i = Some ev
           /\ id ev = default PNone (rec !! "id")
           /\ title ev = default (PStr "Event") (rec !! "title")
           /\ start_time ev = default PNone (rec !! "startTime")
           /\ end_time ev = default PNone (rec !! "endTime")
           /\ status ev = default PNone (rec !! "status")
           /\ description ev = default (PStr EmptyString) (rec !! "description")
           /\ location ev = default (PStr "TBD") (rec !! "location")
           /\ (rec !! "title" = None -> title ev = PStr "Event")
           /\ (rec !! "description" = None -> description ev = PStr EmptyString)
           /\ (rec !! "location" = None -> location ev = PStr "TBD").
Proof.
  intros Hkey Hne Hrem Hst Hjson Hb.
  exists (event_of user_email <$> records). split; [|split].
  - unfold get_scheduled_events. unfold_m.
    rewrite Hkey, (truthy_Some _ Hne). simpl.
    rewrite Hrem, (http_error_msg_none _ Hst). simpl.
    rewrite Hjson. simpl. rewrite Hb. simpl.
    by rewrite simplify_events_dicts.
  - by rewrite length_fmap.
  - intros i rec Hi. exists (event_of user_email rec).
    rewrite list_lookup_fmap, Hi. simpl.
    repeat split; try done; by intros ->.
Qed.

(** C10. Every event that [get_scheduled_events] returns carries the
    [user_email] argument as its attendee e-mail, whatever the remote
    records hold. *)
Theorem list_events_attendee_is_argument (w : world) (user_email : string)
    (evs : list event) :
  run (get_scheduled_events user_email) w = Ok evs ->
  Forall (fun ev => attendee_email ev = user_email) evs.
Proof.
  intros Hrun.
  destruct (decide (truthy (environ w !! "CAL_API_KEY") = true)) as [Ht|Hf].
  - destruct (environ w !! "CAL_API_KEY") as [key|] eqn:Hkey; [|done].
    assert (Hne : key <> EmptyString).
    { intros ->. by vm_compute in Ht. }
    destruct (get_scheduled_events_returns w user_email key Hkey Hne)
      as (evs' & Hrun' & Hcases).
    assert (evs' = evs) as -> by congruence.
    destruct Hcases as [->|(r & d & records & _ & _ & _ & _ & Hev)];
      [constructor|].
    by eapply simplify_events_attendee.
  - apply not_true_is_false in Hf.
    unfold get_scheduled_events in Hrun. unfold_m. by rewrite Hf in Hrun.
Qed.

End Listing.

Section ListingExamples.
Import Py Net CalApi Samples.

(** Without the key, [get_scheduled_events] raises to its caller. *)
Lemma list_events_raises_without_key :
  run (get_scheduled_events "owner@example.com")
      (world_of env_empty unreachable)
  = Raise (Exn ValueError "CAL_API_KEY not found in environment variables").
Proof. reflexivity. Qed.

Lemma list_events_unreachable_is_empty :
  run (get_scheduled_events "owner@example.com")
      (world_of env_full unreachable) = Ok [].
Proof.
  destruct (list_events_degrades_to_empty (world_of env_full unreachable)
              "owner@example.com" "cal_live_key") as (_ & Hfail & _).
  - reflexivity.
  - discriminate.
  - apply (Hfail (Exn ConnectionError "Connection refused")). reflexivity.
Defined.

Lemma list_events_two_records :
  exists evs,
    run (get_scheduled_events "owner@example.com")
        (world_of env_full (answering 200 "OK" (Ok bookings_body))) = Ok evs
    /\ length evs = 2%nat
    /\ (title <$> evs) = [PStr "Review"; PStr "Event"]
    /\ (location <$> evs) = [PStr "Room 4"; PStr "TBD"].
Proof.
  destruct (list_events_maps_each_record
              (world_of env_full (answering 200 "OK" (Ok bookings_body)))
              "owner@example.com" "cal_live_key"
              (Response 200 "OK" "https://api.cal.com/v1/bookings"
                 (Ok bookings_body))
              {[ "bookings" := PList [PDict record1; PDict record2] ]}
              [record1; record2]) as (evs & Hrun & Hlen & _).
  - reflexivity.
  - discriminate.
  - reflexivity.
  - simpl. lia.
  - reflexivity.
  - reflexivity.
  - exists evs. split; [exact Hrun|]. split; [exact Hlen|].
    vm_compute in Hrun. inversion Hrun. split; reflexivity.
Defined.

Lemma list_events_attendee_example :
  Forall (fun ev => attendee_email ev = "owner@example.com")
    (event_of "owner@example.com" <$> [record1; record2]).
Proof.
  apply (list_events_attendee_is_argument
           (world_of env_full (answering 200 "OK" (Ok bookings_body)))).
  vm_compute. reflexivity.
Defined.

End ListingExamples.

(** ** The conversation loop *)

Section Loop.
Import Py Net CalApi Main History Agent.
Context `{Interpreter} (llm : llm_model).

Ltac unfold_m :=
  unfold run, calls_after, mbind, mret, M_bind, M_ret, try_except, attempt,
    raise, lift in *.

(** One unfolding of the loop, as an equation. *)
Lemma executor_loop_unfold (fuel : nat) input history iterations steps :
  executor_loop llm (S fuel) input history iterations steps =
    if decide (iterations < max_iterations)%nat then
      reply ← lift (llm input history steps);
      match reply with
      | FinalAnswer text =>
          mret (Some (AgentResult text steps iterations false))
      | ToolRequests cs =>
          new_steps ← run_tools cs;
          executor_loop llm fuel input history (S iterations)
            (steps ++ new_steps)
      end
    else
      mret (Some (AgentResult "Agent stopped due to max iterations."
                    steps iterations true)).
Proof. reflexivity. Qed.

(** With more fuel than iterations left, the loop ends: it returns a result
    whose iteration count lies between the current count and the cap, or an
    exception of the model or of a tool leaves it. *)
Lemma executor_loop_ends (fuel : nat) input history :
  forall iterations steps w,
    (iterations <= max_iterations)%nat ->
    (max_iterations - iterations < fuel)%nat ->
    match (executor_loop llm fuel input history iterations steps w).1 with
    | Ok (Some res) =>
        (iterations <= iterations_run res <= max_iterations)%nat
    | Ok None => False
    | Raise _ => True
    end.
Proof.
  induction fuel as [|fuel IH]; intros it steps w Hle Hfuel; [lia|].
  rewrite executor_loop_unfold.
  destruct (decide (it < max_iterations)%nat) as [Hlt|Hge].
  - unfold_m. destruct (llm input history steps) as [[cs|text]|e]; simpl.
    + destruct (run_tools cs w) as [[new_steps|e] w'] eqn:Htools; [|done].
      specialize (IH (S it) (steps ++ new_steps) w').
      destruct (executor_loop llm fuel input history (S it)
                  (steps ++ new_steps) w') as [[[res|]|e] w''];
        cbn [fst] in *; [|apply IH; lia|done].
      assert (S it <= iterations_run res <= max_iterations)%nat
        by (apply IH; lia). lia.
    + cbn. lia.
    + done.
  - unfold_m. cbn. lia.
Qed.

(** More fuel than that changes nothing. *)
Lemma executor_loop_fuel (fuel1 : nat) input history :
  forall fuel2 iterations steps w,
    (max_iterations - iterations < fuel1)%nat ->
    (max_iterations - iterations < fuel2)%nat ->
    executor_loop llm fuel1 input history iterations steps w
    = executor_loop llm fuel2 input history iterations steps w.
Proof.
  induction fuel1 as [|fuel1 IH]; intros fuel2 it steps w H1 H2; [lia|].
  destruct fuel2 as [|fuel2]; [lia|].
  rewrite !executor_loop_unfold.
  destruct (decide (it < max_iterations)%nat) as [Hlt|Hge]; [|done].
  unfold_m. destruct (llm input history steps) as [[cs|text]|e]; simpl; try done.
  destruct (run_tools cs w) as [[new_steps|e] w']; [|done].
  apply IH; lia.
Qed.

(** A model that asks for a tool at every turn gets the degraded answer,
    after the cap of iterations, unless an exception ends the loop. *)
Lemma executor_loop_always_tools (fuel : nat) input history :
  (forall i h s, exists cs, llm i h s = Ok (ToolRequests cs)) ->
  forall iterations steps w res,
    (iterations <= max_iterations)%nat ->
    (executor_loop llm fuel input history iterations steps w).1
      = Ok (Some res) ->
    degraded res = true
    /\ iterations_run res = max_iterations
    /\ output res = "Agent stopped due to max iterations.".
Proof.
  intros Hllm.
  induction fuel as [|fuel IH]; intros it steps w res Hle Hres; [done|].
  rewrite executor_loop_unfold in Hres.
  destruct (decide (it < max_iterations)%nat) as [Hlt|Hge].
  - unfold_m. destruct (Hllm input history steps) as [cs Hcs].
    rewrite Hcs in Hres. simpl in Hres.
    destruct (run_tools cs w) as [[new_steps|e] w']; [|done].
    apply (IH (S it) (steps ++ new_steps) w'); [lia|done].
  - unfold_m. simpl in Hres. inversion Hres; subst. simpl.
    repeat split; try done. lia.
Qed.

(** C3. Whatever the model replies, the conversation loop ends within the
    cap of three iterations: unfolded more than three times it never runs
    out of fuel, the result does not depend on the extra fuel, and a result
    counts at most three rounds of tool execution. The entry point of the
    web UI therefore always returns a text. A model that requests a tool on
    every reply gets the degraded answer after exactly three iterations
    (unless a tool or the model raises, which ends the loop at once). *)
Theorem conversation_loop_terminates (st : session_state)
    (input : string) (history : list message) (w : world) :
  (forall fuel, (max_iterations < fuel)%nat ->
     executor_loop llm fuel input history 0 [] w
     = executor_loop llm (S max_iterations) input history 0 [] w
     /\ match (executor_loop llm fuel input history 0 [] w).1 with
        | Ok (Some res) => (iterations_run res <= 3)%nat
        | Ok None => False
        | Raise _ => True
        end)
  /\ (exists text w',
        process_user_message_with_steps llm st input w = (Ok text, w'))
  /\ ((forall i h s, exists cs, llm i h s = Ok (ToolRequests cs)) ->
      forall res, run (invoke llm input history) w = Ok res ->
        degraded res = true /\ iterations_run res = 3%nat
        /\ output res = "Agent stopped due to max iterations.").
Proof.
  split; [|split].
  - intros fuel Hfuel. split.
    + apply executor_loop_fuel; lia.
    + assert (Hends := executor_loop_ends fuel input history 0 [] w).
      assert (H0 : (0 <= max_iterations)%nat) by lia.
      assert (H1 : (max_iterations - 0 < fuel)%nat) by lia.
      specialize (Hends H0 H1).
      destruct (executor_loop llm fuel input history 0 [] w)
        as [[[res|]|e] w']; cbn [fst] in *; [|done..].
      unfold max_iterations in Hends. lia.
  - unfold process_user_message_with_steps, invoke. unfold_m.
    destruct (executor_loop llm (S max_iterations) input
                (chat_history st) 0 [] w) as [[[res|]|e] w'];
      simpl; eauto.
  - intros Hllm res Hres.
    unfold invoke in Hres. unfold_m.
    destruct (executor_loop llm (S max_iterations) input history 0 [] w)
      as [[[res'|]|e] w'] eqn:Hloop; simpl in Hres; try done.
    inversion Hres; subst res'.
    apply (executor_loop_always_tools (S max_iterations) input history
             Hllm 0%nat [] w res); [lia|].
    by rewrite Hloop.
Qed.

End Loop.

Section LoopExample.
Import Py Net CalApi Main History Agent Samples Reference.

(** A model that asks for the current time on every reply. *)
Lemma loop_with_insistent_model :
  exists res,
    run (invoke (fun _ _ _ => Ok (ToolRequests [Call_get_current_datetime]))
           "What time is it?" [])
        (world_of env_full unreachable) = Ok res
    /\ degraded res = true /\ iterations_run res = 3%nat
    /\ length (intermediate_steps res) = 3%nat.
Proof.
  eexists. split; [vm_compute; reflexivity|].
  match goal with |- degraded ?r = _ /\ _ =>
    destruct (conversation_loop_terminates
                (fun _ _ _ => Ok (ToolRequests [Call_get_current_datetime]))
                initial_state "What time is it?" []
                (world_of env_full unreachable)) as (_ & _ & Hdeg);
    destruct (Hdeg (fun _ _ _ => ex_intro _ _ eq_refl) r) as (Hd & Hi & _)
  end.
  - vm_compute. reflexivity.
  - split; [exact Hd|]. split; [exact Hi|]. reflexivity.
Defined.

End LoopExample.

(** ** The calendar client: booking *)

Section Booking.
Import Py Net CalApi.
Context `{Interpreter}.

Ltac unfold_m :=
  unfold run, calls_after, mbind, mret, M_bind, M_ret, try_except, attempt,
    raise, lift, getenv, send, json, raise_for_status in *.

(** [book_event], once its configuration is read: one request, then the
    reply decides. *)
Lemma book_event_ready (w : world) (key : string) (etid : Z)
    (start_time end_time user_email event_title : string) :
  booking_ready w key etid start_time end_time ->
  let req := booking_request_of key etid start_time end_time
               user_email event_title in
  book_event start_time user_email event_title w =
    match remote w req with
    | Failed e => booking_handlers None e (logged w req)
    | Answered r =>
        match http_error_msg r with
        | Some msg =>
            booking_handlers (Some r) (Exn HTTPError msg) (logged w req)
        | None =>
            match json_result r with
            | Raise e => booking_handlers (Some r) e (logged w req)
            | Ok v =>
                match py_get v "id" (PStr "Unknown") with
                | Raise e => booking_handlers (Some r) e (logged w req)
                | Ok booking_id =>
                    (Ok (booking_success event_title booking_id start_time),
                     logged w req)
                end
            end
        end
    end.
Proof.
  intros (Hkey & Hne & (t & Het & Hte & Hint) & Hend) req.
  unfold book_event. unfold_m.
  rewrite Hkey, Het, (truthy_Some _ Hne), (truthy_Some _ Hte). simpl.
  rewrite Hend. simpl. rewrite Hint.
  subst req. unfold booking_request_of.
  destruct (remote w _) as [r|e]; simpl; [|done].
  destruct (http_error_msg r) as [msg|]; simpl; [done|].
  destruct (json_result r) as [v|e]; simpl; [|done].
  destruct (py_get v "id" (PStr "Unknown")); done.
Qed.

(** The handlers always return a text once a response exists. *)
Lemma booking_handlers_http (r : response) (msg : string) (w : world) :
  booking_handlers (Some r) (Exn HTTPError msg) w =
    (Ok (if status_code r =? 400 then booking_bad_request r
         else if status_code r =? 401 then
           "❌ Booking failed: Invalid API key or unauthorized access"
         else if status_code r =? 404 then
           "❌ Booking failed: Event type not found. Check your CAL_EVENT_TYPE_ID"
         else "❌ Booking failed: HTTP " +:+ str_int (status_code r)
              +:+ " - " +:+ msg), w).
Proof.
  unfold booking_handlers. simpl. unfold_m.
  by repeat case_match.
Qed.

(** [book_event] on an error status. *)
Lemma book_event_error_status (w : world) (key : string) (etid : Z)
    (start_time end_time user_email event_title : string) (r : response) :
  booking_ready w key etid start_time end_time ->
  remote w (booking_request_of key etid start_time end_time
              user_email event_title) = Answered r ->
  400 <= status_code r < 600 ->
  exists msg,
    http_error_msg r = Some msg /\
    run (book_event start_time user_email event_title) w =
      Ok (if status_code r =? 400 then booking_bad_request r
          else if status_code r =? 401 then
            "❌ Booking failed: Invalid API key or unauthorized access"
          else if status_code r =? 404 then
            "❌ Booking failed: Event type not found. Check your CAL_EVENT_TYPE_ID"
          else "❌ Booking failed: HTTP " +:+ str_int (status_code r)
               +:+ " - " +:+ msg).
Proof.
  intros Hready Hrem Hs.
  destruct (http_error_msg_some r Hs) as [msg Hmsg].
  exists msg. split; [done|].
  unfold run. rewrite (book_event_ready _ _ _ _ _ _ _ Hready).
  rewrite Hrem, Hmsg, booking_handlers_http. done.
Qed.

End Booking.

(** ** Dates and times *)

Section DatetimeFacts.
Import Py.

Ltac Zify.zify_post_hook ::= Z.div_mod_to_equations.

Lemma is_leap_spec (y : Z) :
  is_leap y = true <-> y mod 4 = 0 /\ (y mod 100 <> 0 \/ y mod 400 = 0).
Proof.
  unfold is_leap.
  rewrite andb_true_iff, orb_true_iff, negb_true_iff, !Z.eqb_eq, Z.eqb_neq.
  done.
Qed.

(** A year has 365 days, and 366 when it is a leap year. *)
Lemma days_before_next_year (y : Z) :
  days_before_year (y + 1)
  = days_before_year y + (if is_leap y then 366 else 365).
Proof.
  unfold days_before_year.
  destruct (is_leap y) eqn:Hl.
  - apply is_leap_spec in Hl. lia.
  - assert (Hn : ~ (y mod 4 = 0 /\ (y mod 100 <> 0 \/ y mod 400 = 0))).
    { intros Hc. apply is_leap_spec in Hc. congruence. }
    lia.
Qed.

(** A month starts where the previous one ends. *)
Lemma days_before_next_month (y m : Z) :
  1 <= m <= 11 ->
  days_before_month y (m + 1) = days_before_month y m + days_in_month y m.
Proof.
  intros Hm.
  assert (Hcases : m = 1 \/ m = 2 \/ m = 3 \/ m = 4 \/ m = 5 \/ m = 6 \/ m = 7
                   \/ m = 8 \/ m = 9 \/ m = 10 \/ m = 11) by lia.
  unfold days_before_month, days_in_month.
  destruct Hcases as [->|[->|[->|[->|[->|[->|[->|[->|[->|[->| ->]]]]]]]]]];
    simpl; destruct (is_leap y); reflexivity.
Qed.

Lemma days_before_december (y : Z) :
  days_before_month y 12 + 31 = (if is_leap y then 366 else 365).
Proof.
  unfold days_before_month. simpl. destruct (is_leap y); reflexivity.
Qed.

Lemma days_before_january (y : Z) : days_before_month y 1 = 0.
Proof. reflexivity. Qed.

Lemma days_in_december (y : Z) : days_in_month y 12 = 31.
Proof. reflexivity. Qed.

(** What [valid_fields] checks, as propositions. *)
Lemma valid_fields_spec (y mo d h mi s : Z) :
  valid_fields y mo d h mi s = true <->
  1 <= y <= MAXYEAR /\ 1 <= mo <= 12 /\ 1 <= d <= days_in_month y mo
  /\ 0 <= h <= 23 /\ 0 <= mi <= 59 /\ 0 <= s <= 59.
Proof.
  unfold valid_fields. rewrite !andb_true_iff, !bool_decide_eq_true. tauto.
Qed.

(** The day after a valid date is one ordinal later. *)
Lemma next_day_ordinal (y m d y' m' d' : Z) :
  1 <= m <= 12 -> 1 <= d <= days_in_month y m ->
  next_day y m d = Some (y', m', d') ->
  days_before_year y' + days_before_month y' m' + d'
  = days_before_year y + days_before_month y m + d + 1
  /\ 1 <= m' <= 12 /\ 1 <= d' <= days_in_month y' m' /\ y <= y' <= y + 1.
Proof.
  intros Hm Hd. unfold next_day.
  destruct (d <? days_in_month y m) eqn:E1.
  { intros [= <- <- <-]. apply Z.ltb_lt in E1. lia. }
  apply Z.ltb_ge in E1.
  destruct (m <? 12) eqn:E2.
  { intros [= <- <- <-]. apply Z.ltb_lt in E2.
    rewrite days_before_next_month by lia.
    assert (1 <= days_in_month y (m + 1)).
    { unfold days_in_month. repeat case_match; lia. }
    lia. }
  apply Z.ltb_ge in E2.
  destruct (y <? MAXYEAR) eqn:E3; [|done].
  intros [= <- <- <-].
  assert (m = 12) as -> by lia.
  rewrite days_before_next_year, days_before_january.
  pose proof (days_before_december y) as Hdec.
  rewrite days_in_december in *.
  change (days_in_month (y + 1) 1) with 31.
  lia.
Qed.

(** Adding less than a day to a valid datetime moves its instant by exactly
    that much and keeps the offset, the seconds and the validity. *)
Lemma add_minutes_instant (dt dt' : datetime) (n : Z) :
  valid dt -> 0 <= n < 1440 ->
  add_minutes dt n = Ok dt' ->
  instant dt' = instant dt + n * 60 * 1000000
  /\ utcoffset dt' = utcoffset dt
  /\ second dt' = second dt
  /\ microsecond dt' = microsecond dt
  /\ valid dt'.
Proof.
  intros Hv Hn. unfold valid in *.
  apply valid_fields_spec in Hv.
  destruct Hv as (Hy & Hmo & Hd & Hh & Hmi & Hs).
  unfold add_minutes.
  destruct (hour dt + (minute dt + n) / 60 <? 24) eqn:E.
  - intros [= <-]. apply Z.ltb_lt in E.
    unfold instant, toordinal. simpl.
    repeat split; try done; [lia|].
    apply valid_fields_spec. lia.
  - apply Z.ltb_ge in E.
    destruct (next_day (year dt) (month dt) (day dt))
      as [[[y mo] d]|] eqn:Hnext; [|done].
    intros [= <-].
    destruct (next_day_ordinal _ _ _ _ _ _ Hmo Hd Hnext)
      as (Hord & Hmo' & Hd' & Hy').
    assert (y <= MAXYEAR).
    { unfold next_day in Hnext. repeat case_match; simplify_eq; lia. }
    unfold instant, toordinal. simpl.
    repeat split; try done; [lia|].
    apply valid_fields_spec. lia.
Qed.

(** The only overflow is out of the last day of [MAXYEAR]. *)
Lemma add_minutes_overflow (dt : datetime) (n : Z) (e : exn) :
  valid dt -> add_minutes dt n = Raise e ->
  year dt = MAXYEAR /\ month dt = 12 /\ day dt = 31
  /\ 24 <= hour dt + (minute dt + n) / 60.
Proof.
  intros Hv. unfold valid in Hv. apply valid_fields_spec in Hv.
  destruct Hv as (Hy & Hmo & Hd & _).
  unfold add_minutes, next_day.
  destruct (hour dt + (minute dt + n) / 60 <? 24) eqn:E; [done|].
  apply Z.ltb_ge in E.
  destruct (day dt <? days_in_month (year dt) (month dt)) eqn:E1; [done|].
  destruct (month dt <? 12) eqn:E2; [done|].
  destruct (year dt <? MAXYEAR) eqn:E3; [done|].
  intros _.
  apply Z.ltb_ge in E1, E2, E3.
  assert (month dt = 12) as Hm by lia.
  rewrite Hm, days_in_december in *. lia.
Qed.

(** What [well_formed_b] checks, as propositions. *)
Lemma well_formed_spec (dt : datetime) :
  well_formed dt <->
  valid dt /\ 0 <= microsecond dt < 1000000
  /\ match utcoffset dt with
     | Some off => -86400000000 < off < 86400000000
     | None => True
     end.
Proof.
  unfold well_formed, well_formed_b, valid.
  rewrite !andb_true_iff, Z.leb_le, Z.ltb_lt.
  destruct (utcoffset dt) as [off|].
  - rewrite andb_true_iff, !Z.ltb_lt. tauto.
  - tauto.
Qed.

End DatetimeFacts.

(** ** The end time of a booking *)

Section EndTime.
Import Py Net CalApi.

Ltac Zify.zify_post_hook ::= Z.div_mod_to_equations.

Lemma no_plus_app (s t : string) :
  no_plus (s +:+ t) = no_plus s && no_plus t.
Proof.
  induction s as [|c s IH]; [done|]. simpl. rewrite IH.
  by rewrite andb_assoc.
Qed.

Lemma prefix_cons (a b : ascii) (s t : string) :
  String.prefix (String a s) (String b t)
  = if Ascii.ascii_dec a b then String.prefix s t else false.
Proof. reflexivity. Qed.

Lemma prefix_plus (c : ascii) (s rest : string) :
  Ascii.eqb c "+" = false -> String.prefix (String "+" rest) (String c s) = false.
Proof.
  intros Hc. rewrite prefix_cons.
  destruct (Ascii.ascii_dec "+" c) as [<-|]; [|done].
  by vm_compute in Hc.
Qed.

(** Replacing [+00:00] passes over a text without [+]. *)
Lemma replace_no_plus (s t : string) :
  no_plus s = true ->
  replace "+00:00" "Z" (s +:+ t) = s +:+ replace "+00:00" "Z" t.
Proof.
  unfold replace. induction s as [|c s IH]; [done|].
  simpl no_plus. rewrite andb_true_iff, negb_true_iff. intros [Hc Hs].
  change (String c s +:+ t) with (String c (s +:+ t)).
  cbn [replace_from]. rewrite (prefix_plus c _ _ Hc).
  by rewrite IH.
Qed.

Lemma replace_empty (old new : string) : replace old new EmptyString = EmptyString.
Proof. reflexivity. Qed.

Lemma digit_char_cases (d : Z) :
  0 <= d <= 9 ->
  digit_char d = "0"%char /\ d = 0 \/
  In (digit_char d) ["1"; "2"; "3"; "4"; "5"; "6"; "7"; "8"; "9"]%char.
Proof.
  intros Hd.
  assert (Hc : d = 0 \/ d = 1 \/ d = 2 \/ d = 3 \/ d = 4 \/ d = 5 \/ d = 6
               \/ d = 7 \/ d = 8 \/ d = 9) by lia.
  destruct Hc as [->|[->|[->|[->|[->|[->|[->|[->|[->| ->]]]]]]]]];
    [left; split; reflexivity|right; vm_compute; tauto..].
Qed.

Lemma digit_char_no_plus (d : Z) :
  0 <= d <= 9 -> Ascii.eqb (digit_char d) "+" = false.
Proof.
  intros Hd. destruct (digit_char_cases d Hd) as [[-> _]|Hin]; [done|].
  simpl in Hin.
  repeat (destruct Hin as [<-|Hin]; [done|]). done.
Qed.

Lemma digit_char_zero (d : Z) :
  0 <= d <= 9 -> digit_char d = "0"%char -> d = 0.
Proof.
  intros Hd Hz. destruct (digit_char_cases d Hd) as [[_ ->]|Hin]; [done|].
  rewrite Hz in Hin. simpl in Hin.
  repeat (destruct Hin as [Hin|Hin]; [discriminate Hin|]). done.
Qed.

Lemma pad2_no_plus (n : Z) : no_plus (pad2 n) = true.
Proof.
  unfold pad2. cbn [no_plus].
  assert (0 <= n / 10 mod 10 <= 9) by (pose proof (Z.mod_pos_bound (n / 10) 10); lia).
  assert (0 <= n mod 10 <= 9) by (pose proof (Z.mod_pos_bound n 10); lia).
  by rewrite !digit_char_no_plus.
Qed.

Lemma pad4_no_plus (n : Z) : no_plus (pad4 n) = true.
Proof. unfold pad4. by rewrite no_plus_app, !pad2_no_plus. Qed.

Lemma local_text_no_plus (dt : datetime) : no_plus (local_text dt) = true.
Proof.
  unfold local_text.
  by rewrite !no_plus_app, pad4_no_plus, !pad2_no_plus.
Qed.

Lemma append_cons (c : ascii) (s t : string) :
  String c s +:+ t = String c (s +:+ t).
Proof. reflexivity. Qed.

Lemma append_empty_l (t : string) : EmptyString +:+ t = t.
Proof. reflexivity. Qed.

Lemma append_empty_r (s : string) : s +:+ EmptyString = s.
Proof.
  induction s as [|c s IH]; [done|].
  change (String c (s +:+ EmptyString) = String c s). by rewrite IH.
Qed.

Lemma pad6_no_plus (n : Z) : no_plus (pad6 n) = true.
Proof. unfold pad6. by rewrite no_plus_app, pad2_no_plus, pad4_no_plus. Qed.

Lemma offset_tail_no_plus (a : Z) : no_plus (offset_tail a) = true.
Proof.
  unfold offset_tail. repeat case_match; try done;
    by rewrite ?no_plus_app, ?pad2_no_plus, ?pad6_no_plus.
Qed.

Lemma fraction_text_no_plus (dt : datetime) :
  no_plus (fraction_text dt) = true.
Proof.
  unfold fraction_text. case_match; [done|].
  by rewrite no_plus_app, pad6_no_plus.
Qed.

(** A text without [+] is left alone. *)
Lemma replace_unchanged (s : string) :
  no_plus s = true -> replace "+00:00" "Z" s = s.
Proof.
  intros Hs. rewrite <- (append_empty_r s) at 1.
  rewrite replace_no_plus by done. by rewrite replace_empty, append_empty_r.
Qed.

(** The text [+00:00] at the head becomes [Z]. *)
Lemma replace_plus_zero (t : string) :
  no_plus t = true ->
  replace "+00:00" "Z" (String "+" (String "0" (String "0" (String ":"
                          (String "0" (String "0" t))))))
  = String "Z" t.
Proof.
  intros Ht. unfold replace. cbn [replace_from].
  assert (Hpre : String.prefix "+00:00"
                   (String "+" (String "0" (String "0" (String ":"
                      (String "0" (String "0" t)))))) = true).
  { rewrite !prefix_cons.
    repeat match goal with
           | |- (if Ascii.ascii_dec ?a ?b then _ else false) = true =>
               destruct (Ascii.ascii_dec a b) as [_|Hne]; [|by destruct Hne]
           end.
    by destruct t. }
  rewrite Hpre.
  change (String.length "+00:00" - 1)%nat with 5%nat.
  cbn [replace_from].
  fold (replace "+00:00" "Z" t). rewrite replace_unchanged by done.
  reflexivity.
Qed.

(** A printed offset is left alone unless it starts with [+00:00], which it
    does when it lies east of UTC by less than a minute. *)
Lemma replace_format_offset (off : Z) :
  -86400000000 < off < 86400000000 ->
  replace "+00:00" "Z" (format_offset off) = zone_text (Some off).
Proof.
  intros Hoff. unfold zone_text, format_offset.
  destruct (off <? 0) eqn:Hneg.
  - apply Z.ltb_lt in Hneg.
    replace (0 <=? off) with false by (symmetry; apply Z.leb_gt; lia).
    cbn [andb]. apply replace_unchanged.
    by rewrite !no_plus_app, !pad2_no_plus, offset_tail_no_plus.
  - apply Z.ltb_ge in Hneg.
    replace (0 <=? off) with true by (symmetry; apply Z.leb_le; lia).
    cbn [andb]. rewrite Z.abs_eq by done.
    destruct (off <? 60000000) eqn:Hsmall.
    + apply Z.ltb_lt in Hsmall.
      replace (off / 3600000000) with 0 by lia.
      replace (off / 60000000 mod 60) with 0 by lia.
      change (pad2 0) with "00".
      rewrite !append_cons, !append_empty_l.
      rewrite replace_plus_zero by apply offset_tail_no_plus.
      reflexivity.
    + apply Z.ltb_ge in Hsmall.
      set (rest := pad2 (off / 3600000000) +:+ ":"
                   +:+ pad2 (off / 60000000 mod 60) +:+ offset_tail off).
      change ("+" +:+ rest) with (String "+" rest).
      unfold replace. cbn [replace_from].
      assert (Hpre : String.prefix "+00:00" (String "+" rest) = false).
      { rewrite prefix_cons. destruct (Ascii.ascii_dec "+" "+"); [|done].
        subst rest. unfold pad2.
        rewrite !append_cons, !append_empty_l, !prefix_cons.
        repeat match goal with
               | |- (if Ascii.ascii_dec ?a ?b then _ else false) = false =>
                   destruct (Ascii.ascii_dec a b) as [?Heq|]; [|done]
               end.
        exfalso.
        repeat match goal with
               | Heq : "0"%char = digit_char ?d |- _ =>
                   symmetry in Heq; apply digit_char_zero in Heq;
                   [|pose proof (Z.mod_pos_bound (d / 10) 10);
                     pose proof (Z.mod_pos_bound d 10); lia]
               end.
        lia. }
      rewrite Hpre. f_equal.
      fold (replace "+00:00" "Z" rest). apply replace_unchanged.
      subst rest. by rewrite !no_plus_app, !pad2_no_plus, offset_tail_no_plus.
Qed.

(** The end time of a booking, spelled out: the local date and time, the
    fraction of a second, then the zone. *)
Lemma end_time_text (dt : datetime) :
  match utcoffset dt with
  | Some off => -86400000000 < off < 86400000000
  | None => True
  end ->
  replace "+00:00" "Z" (isoformat dt)
  = local_text dt +:+ fraction_text dt +:+ zone_text (utcoffset dt).
Proof.
  intros Hoff. unfold isoformat.
  rewrite replace_no_plus by apply local_text_no_plus.
  rewrite replace_no_plus by apply fraction_text_no_plus.
  do 2 f_equal. destruct (utcoffset dt) as [off|]; [|done].
  by apply replace_format_offset.
Qed.

End EndTime.

(** ** The calendar client: what a booking sends and returns *)

Section BookingClaims.
Import Py Net CalApi.
Context `{Interpreter}.

Ltac unfold_m :=
  unfold run, calls_after, mbind, mret, M_bind, M_ret, try_except, attempt,
    raise, lift, getenv, send, json, raise_for_status in *.

(** The handlers leave the world as it is. *)
Lemma booking_handlers_world (resp : option response) (e : exn) (w : world) :
  (booking_handlers resp e w).2 = w.
Proof.
  unfold booking_handlers. unfold_m. by repeat case_match.
Qed.

(** Once ready, [book_event] issues exactly its request. *)
Lemma book_event_calls (w : world) (key : string) (etid : Z)
    (start_time end_time user_email event_title : string) :
  booking_ready w key etid start_time end_time ->
  calls_after (book_event start_time user_email event_title) w
  = calls w ++ [booking_request_of key etid start_time end_time
                  user_email event_title].
Proof.
  intros Hready. unfold calls_after.
  rewrite (book_event_ready _ _ _ _ _ _ _ Hready).
  repeat case_match; by rewrite ?booking_handlers_world.
Qed.

Lemma booking_payload_start (key : string) (etid : Z)
    (start_time end_time user_email event_title : string) :
  payload_field (booking_request_of key etid start_time end_time
                   user_email event_title) "start" = Some (PStr start_time).
Proof. reflexivity. Qed.

Lemma booking_payload_end (key : string) (etid : Z)
    (start_time end_time user_email event_title : string) :
  payload_field (booking_request_of key etid start_time end_time
                   user_email event_title) "end" = Some (PStr end_time).
Proof. reflexivity. Qed.

(** The end time, from the datetime the start was read as. *)
Lemma booking_end_time_of (start_time : string) (start_dt : datetime) :
  fromisoformat (replace "Z" "+00:00" start_time) = Ok start_dt ->
  ~ (year start_dt = MAXYEAR /\ month start_dt = 12 /\ day start_dt = 31
     /\ hour start_dt = 23 /\ 30 <= minute start_dt) ->
  exists end_dt,
    add_minutes start_dt 30 = Ok end_dt
    /\ booking_end_time start_time
       = Ok (replace "+00:00" "Z" (isoformat end_dt))
    /\ replace "+00:00" "Z" (isoformat end_dt)
       = local_text end_dt +:+ fraction_text end_dt
         +:+ zone_text (utcoffset end_dt)
    /\ instant end_dt = instant start_dt + 30 * 60 * 1000000
    /\ utcoffset end_dt = utcoffset start_dt
    /\ second end_dt = second start_dt
    /\ microsecond end_dt = microsecond start_dt
    /\ well_formed end_dt.
Proof.
  intros Hparse Hlast. unfold booking_end_time. rewrite Hparse.
  apply fromisoformat_well_formed, well_formed_spec in Hparse.
  destruct Hparse as (Hv & Hus & Hoff).
  destruct (add_minutes start_dt 30) as [end_dt|e] eqn:Hadd.
  - destruct (add_minutes_instant _ _ 30 Hv ltac:(lia) Hadd)
      as (Hi & Ho & Hs & Hus' & Hv').
    exists end_dt. repeat split; try done.
    + apply end_time_text. by rewrite Ho.
    + apply well_formed_spec. by rewrite Ho, Hus'.
  - destruct (add_minutes_overflow _ _ _ Hv Hadd) as (Hy & Hm & Hd & Hh).
    exfalso. apply Hlast.
    unfold valid in Hv. apply valid_fields_spec in Hv.
    pose proof (Z.div_mod (minute start_dt + 30) 60 ltac:(lia)).
    pose proof (Z.mod_pos_bound (minute start_dt + 30) 60 ltac:(lia)).
    repeat split; try done; lia.
Qed.

(** A start time is turned down only when [datetime.fromisoformat] raises
    on it or when it lies in the last half hour of year 9999. *)
Lemma booking_end_time_raises (start_time : string) (e : exn) :
  booking_end_time start_time = Raise e ->
  fromisoformat (replace "Z" "+00:00" start_time) = Raise e
  \/ exists start_dt,
       fromisoformat (replace "Z" "+00:00" start_time) = Ok start_dt
       /\ year start_dt = MAXYEAR /\ month start_dt = 12 /\ day start_dt = 31
       /\ hour start_dt = 23 /\ 30 <= minute start_dt.
Proof.
  unfold booking_end_time.
  destruct (fromisoformat (replace "Z" "+00:00" start_time))
    as [start_dt|e'] eqn:Hparse; [|intros [= ->]; by left].
  apply fromisoformat_well_formed, well_formed_spec in Hparse.
  destruct Hparse as (Hv & _).
  destruct (add_minutes start_dt 30) as [end_dt|e'] eqn:Hadd; [done|].
  intros _. right. exists start_dt. split; [done|].
  destruct (add_minutes_overflow _ _ _ Hv Hadd) as (Hy & Hm & Hd & Hh).
  unfold valid in Hv. apply valid_fields_spec in Hv.
  pose proof (Z.div_mod (minute start_dt + 30) 60 ltac:(lia)).
  pose proof (Z.mod_pos_bound (minute start_dt + 30) 60 ltac:(lia)).
  repeat split; try done; lia.
Qed.

(** C4, as amended. For every start time that [datetime.fromisoformat]
    accepts once [Z] is replaced by [+00:00], whatever its shape, and that
    does not lie in the last half hour of year 9999, the payload of the
    request carries the start as given and an end that denotes the instant
    exactly 30 minutes later at the same UTC offset, with the seconds and
    microseconds of the start. The end is the ISO text of that datetime
    with [+00:00] written [Z]: the local date and time, the fraction of a
    second if any, and the zone, which is nothing for a naive start, [Z]
    for the offset zero however the start wrote it, and the signed offset
    otherwise (an offset east of UTC by less than a minute prints as [Z]
    followed by its seconds). In particular the start 2025-07-11T14:00:00Z,
    read as 14:00 UTC on 11 July 2025, gives the end
    2025-07-11T14:30:00Z. *)
Theorem booking_end_is_30_minutes_after_start (w : world) (key t : string)
    (etid : Z) (start_time user_email event_title : string)
    (start_dt : datetime) :
  environ w !! "CAL_API_KEY" = Some key -> key <> EmptyString ->
  environ w !! "CAL_EVENT_TYPE_ID" = Some t -> t <> EmptyString ->
  int_of_str t = Some etid ->
  fromisoformat (replace "Z" "+00:00" start_time) = Ok start_dt ->
  ~ (year start_dt = MAXYEAR /\ month start_dt = 12 /\ day start_dt = 31
     /\ hour start_dt = 23 /\ 30 <= minute start_dt) ->
  (exists end_dt req,
     calls_after (book_event start_time user_email event_title) w
     = calls w ++ [req]
     /\ payload_field req "start" = Some (PStr start_time)
     /\ payload_field req "end"
        = Some (PStr (replace "+00:00" "Z" (isoformat end_dt)))
     /\ replace "+00:00" "Z" (isoformat end_dt)
        = local_text end_dt +:+ fraction_text end_dt
          +:+ zone_text (utcoffset end_dt)
     /\ instant end_dt = instant start_dt + 30 * 60 * 1000000
     /\ utcoffset end_dt = utcoffset start_dt
     /\ second end_dt = second start_dt
     /\ microsecond end_dt = microsecond start_dt
     /\ well_formed end_dt)
  /\ (fromisoformat "2025-07-11T14:00:00+00:00"
      = Ok (Datetime 2025 7 11 14 0 0 0 (Some 0)) ->
      booking_end_time "2025-07-11T14:00:00Z" = Ok "2025-07-11T14:30:00Z").
Proof.
  intros Hkey Hne Het Hte Hint Hparse Hlast. split.
  - destruct (booking_end_time_of _ _ Hparse Hlast)
      as (end_dt & _ & Hend & Htext & Hi & Ho & Hs & Hus & Hwf).
    exists end_dt. eexists. split; [|split; [|split]].
    + apply book_event_calls.
      split; [exact Hkey|]. split; [exact Hne|]. split; [|exact Hend].
      exists t. by repeat split.
    + apply booking_payload_start.
    + apply booking_payload_end.
    + by repeat split.
  - intros Hutc. unfold booking_end_time.
    change (replace "Z" "+00:00" "2025-07-11T14:00:00Z")
      with "2025-07-11T14:00:00+00:00".
    rewrite Hutc. reflexivity.
Qed.

(** C5. When the remote service answers the booking request with status
    400 and a message that contains [no_available_users_found_error],
    [book_event] returns the text that says that you, the owner of the
    calendar, are not available, a text that does not mention the attendee.
    Any other message of a 400 response is returned as it is, 401 gives the
    unauthorized text, 404 the text about the event type, and every other
    error status the generic text with the status code. *)
Theorem booking_failure_texts (w : world) (key : string) (etid : Z)
    (start_time end_time user_email event_title : string) (r : response) :
  booking_ready w key etid start_time end_time ->
  remote w (booking_request_of key etid start_time end_time
              user_email event_title) = Answered r ->
  let result := run (book_event start_time user_email event_title) w in
  (forall d msg,
     status_code r = 400 -> json_result r = Ok (PDict d) ->
     d !! "message" = Some (PStr msg) ->
     (contains "no_available_users_found_error" msg = true ->
        result = Ok owner_unavailable)
     /\ (contains "no_available_users_found_error" msg = false ->
        result = Ok ("❌ Booking failed: " +:+ msg)))
  /\ (status_code r = 401 ->
      result = Ok "❌ Booking failed: Invalid API key or unauthorized access")
  /\ (status_code r = 404 ->
      result = Ok "❌ Booking failed: Event type not found. Check your CAL_EVENT_TYPE_ID")
  /\ (400 <= status_code r < 600 -> status_code r <> 400 ->
      status_code r <> 401 -> status_code r <> 404 ->
      exists detail,
        result = Ok ("❌ Booking failed: HTTP " +:+ str_int (status_code r)
                     +:+ " - " +:+ detail))
  /\ contains "You are not available" owner_unavailable = true
  /\ contains "attendee" owner_unavailable = false.
Proof.
  intros Hready Hrem result.
  assert (Herr : 400 <= status_code r < 600 -> exists msg,
             result = Ok (if status_code r =? 400 then booking_bad_request r
                else if status_code r =? 401 then
                  "❌ Booking failed: Invalid API key or unauthorized access"
                else if status_code r =? 404 then
                  "❌ Booking failed: Event type not found. Check your CAL_EVENT_TYPE_ID"
                else "❌ Booking failed: HTTP " +:+ str_int (status_code r)
                     +:+ " - " +:+ msg)).
  { intros Hs.
    destruct (book_event_error_status _ _ _ _ _ _ _ _ Hready Hrem Hs)
      as (msg & _ & Hrun). by exists msg. }
  split; [|split; [|split; [|split; [|split]]]].
  - intros d msg Hs Hjson Hmsg.
    destruct Herr as [m Hres]; [lia|]. rewrite Hs in Hres. simpl in Hres.
    unfold booking_bad_request in Hres. rewrite Hjson in Hres.
    simpl in Hres. rewrite Hmsg in Hres. simpl in Hres.
    split; intros Hc; rewrite Hc in Hres; exact Hres.
  - intros Hs. destruct Herr as [m Hres]; [lia|]. by rewrite Hs in Hres.
  - intros Hs. destruct Herr as [m Hres]; [lia|]. by rewrite Hs in Hres.
  - intros Hs H400 H401 H404. destruct Herr as [m Hres]; [lia|].
    exists m. rewrite Hres.
    apply Z.eqb_neq in H400, H401, H404. by rewrite H400, H401, H404.
  - reflexivity.
  - reflexivity.
Qed.


End BookingClaims.

Section BookingExamples.
Import Py Net CalApi Samples Reference.

(** A start written with [+00:00] gets an end written with [Z]. *)
Lemma booking_end_rewrites_utc_offset :
  exists req,
    calls_after (book_event "2025-07-11T14:00:00+00:00" "guest@example.com" "Sync")
      (world_of env_full accepting) = [req]
    /\ payload_field req "start" = Some (PStr "2025-07-11T14:00:00+00:00")
    /\ payload_field req "end" = Some (PStr "2025-07-11T14:30:00Z")
    /\ zone_suffix "2025-07-11T14:00:00+00:00"
       <> zone_suffix "2025-07-11T14:30:00Z".
Proof.
  eexists. split; [vm_compute; reflexivity|].
  split; [reflexivity|]. split; [reflexivity|]. discriminate.
Qed.

(** A start in the last half hour of year 9999 is turned down, and nothing
    is sent. *)
Lemma booking_end_of_time :
  run (book_event "9999-12-31T23:45:00Z" "guest@example.com" "Sync")
      (world_of env_full accepting)
  = Ok "❌ Booking failed: Invalid start time format"
  /\ calls_after (book_event "9999-12-31T23:45:00Z" "guest@example.com" "Sync")
       (world_of env_full accepting) = [].
Proof. split; reflexivity. Qed.

(** A start shortly before the new year, five and a half hours west. *)
Lemma booking_end_across_new_year :
  (exists end_dt req,
     calls_after (book_event "2025-12-31T23:45:00-05:30" "guest@example.com" "Sync")
       (world_of env_full accepting) = [] ++ [req]
     /\ payload_field req "start" = Some (PStr "2025-12-31T23:45:00-05:30")
     /\ payload_field req "end"
        = Some (PStr (replace "+00:00" "Z" (isoformat end_dt)))
     /\ replace "+00:00" "Z" (isoformat end_dt)
        = local_text end_dt +:+ fraction_text end_dt
          +:+ zone_text (utcoffset end_dt)
     /\ instant end_dt
        = instant (Datetime 2025 12 31 23 45 0 0 (Some (-19800000000)))
          + 30 * 60 * 1000000
     /\ utcoffset end_dt = Some (-19800000000)
     /\ second end_dt = 0
     /\ microsecond end_dt = 0
     /\ well_formed end_dt)
  /\ (fromisoformat "2025-07-11T14:00:00+00:00"
      = Ok (Datetime 2025 7 11 14 0 0 0 (Some 0)) ->
      booking_end_time "2025-07-11T14:00:00Z" = Ok "2025-07-11T14:30:00Z").
Proof.
  apply (booking_end_is_30_minutes_after_start
           (world_of env_full accepting) "cal_live_key" "42" 42
           "2025-12-31T23:45:00-05:30" "guest@example.com" "Sync"
           (Datetime 2025 12 31 23 45 0 0 (Some (-19800000000)))).
  - reflexivity.
  - discriminate.
  - reflexivity.
  - discriminate.
  - reflexivity.
  - vm_compute. reflexivity.
  - intros (Hy & _). discriminate Hy.
Defined.

Lemma booking_end_across_new_year_text :
  booking_end_time "2025-12-31T23:45:00-05:30" = Ok "2026-01-01T00:15:00-05:30"
  /\ booking_end_time "2024-02-28T23:40:00" = Ok "2024-02-29T00:10:00"
  /\ booking_end_time "2025-07-11T14:00:00-00:00" = Ok "2025-07-11T14:30:00Z".
Proof. repeat split; reflexivity. Qed.

(** Other shapes of start: a date alone, no seconds, a space for the
    separator, a fraction of a second, and an offset of seconds. *)
Lemma booking_end_other_shapes :
  booking_end_time "2025-07-11" = Ok "2025-07-11T00:30:00"
  /\ booking_end_time "2025-07-11T14:00Z" = Ok "2025-07-11T14:30:00Z"
  /\ booking_end_time "2025-07-11 14:00:00" = Ok "2025-07-11T14:30:00"
  /\ booking_end_time "2025-07-11T14:00:00.500Z"
     = Ok "2025-07-11T14:30:00.500000Z"
  /\ booking_end_time "2025-07-11T14:00:00+00:00:30"
     = Ok "2025-07-11T14:30:00Z:30"
  /\ booking_end_time "2025-07-11T14:00:00-00:00:30"
     = Ok "2025-07-11T14:30:00-00:00:30".
Proof. repeat split; vm_compute; reflexivity. Qed.

Lemma sample_ready (remote : request -> http_outcome)
    (start_time end_time : string) :
  booking_end_time start_time = Ok end_time ->
  booking_ready (world_of env_full remote) "cal_live_key" 42
    start_time end_time.
Proof.
  intros Hend. split; [reflexivity|]. split; [discriminate|].
  split; [|exact Hend]. exists "42". split; [reflexivity|].
  split; [discriminate|reflexivity].
Defined.

(** The owner of the calendar is busy. *)
Lemma booking_busy_owner :
  run (book_event "2025-07-11T14:00:00Z" "guest@example.com" "Sync")
      (world_of env_full busy_owner) = Ok owner_unavailable.
Proof.
  destruct (booking_failure_texts (world_of env_full busy_owner)
              "cal_live_key" 42 "2025-07-11T14:00:00Z" "2025-07-11T14:30:00Z"
              "guest@example.com" "Sync"
              (Response 400 "Bad Request"
                 "https://api.cal.com/v1/bookings?apiKey=cal_live_key"
                 (message_body "no_available_users_found_error")))
    as (Hbad & _).
  - apply sample_ready. reflexivity.
  - reflexivity.
  - destruct (Hbad {[ "message" := PStr "no_available_users_found_error" ]}
                "no_available_users_found_error") as (Hbusy & _);
      [reflexivity..|].
    apply Hbusy. reflexivity.
Defined.



End BookingExamples.

(** ** The calendar client and the tool: cancelling *)

Section Cancelling.
Import Py Net CalApi Main.
Context `{Interpreter}.

Ltac unfold_m :=
  unfold run, calls_after, mbind, mret, M_bind, M_ret, try_except, attempt,
    raise, lift, getenv, send, json, raise_for_status in *.

Lemma prefix_append (x s : string) : String.prefix x (x +:+ s) = true.
Proof.
  induction x as [|c x IH]; [by destruct s|].
  rewrite append_cons, prefix_cons.
  by destruct (Ascii.ascii_dec c c).
Qed.

Lemma contains_prefix (x s : string) :
  String.prefix x s = true -> contains x s = true.
Proof.
  intros Hp. destruct s as [|c s]; [exact Hp|].
  cbn [contains]. by rewrite Hp.
Qed.

Lemma contains_append_r (x a s : string) :
  contains x s = true -> contains x (a +:+ s) = true.
Proof.
  intros Hs. induction a as [|c a IH]; [done|].
  rewrite append_cons. cbn [contains]. rewrite IH. apply orb_true_r.
Qed.

(** A text contains what it is assembled from. *)
Lemma contains_middle (x a b : string) : contains x (a +:+ x +:+ b) = true.
Proof. apply contains_append_r, contains_prefix, prefix_append. Qed.

(** [cancel_event], once the key is read: one request, then the reply
    decides. *)
Lemma cancel_event_ready (w : world) (key : string) (booking_id : Z)
    (cancellation_reason : string) :
  environ w !! "CAL_API_KEY" = Some key -> key <> EmptyString ->
  let req := cancel_request key booking_id cancellation_reason in
  cancel_event booking_id cancellation_reason w =
    match remote w req with
    | Failed e => cancel_handlers booking_id None e (logged w req)
    | Answered r =>
        match http_error_msg r with
        | Some msg =>
            cancel_handlers booking_id (Some r) (Exn HTTPError msg)
              (logged w req)
        | None =>
            (Ok ("✅ Booking " +:+ str_int booking_id
                 +:+ " successfully cancelled. Reason: "
                 +:+ cancellation_reason), logged w req)
        end
    end.
Proof.
  intros Hkey Hne req. unfold cancel_event. unfold_m.
  rewrite Hkey, (truthy_Some _ Hne). simpl. subst req.
  destruct (remote w _) as [r|e]; simpl; [|done].
  by destruct (http_error_msg r).
Qed.

(** C9. When the remote service answers the cancellation of a booking with
    status 404, [cancel_event] returns the failure text made of the booking
    id and the words "not found". *)
Theorem cancel_not_found_names_the_booking (w : world) (key : string)
    (booking_id : Z) (cancellation_reason : string) (r : response) :
  environ w !! "CAL_API_KEY" = Some key -> key <> EmptyString ->
  remote w (cancel_request key booking_id cancellation_reason) = Answered r ->
  status_code r = 404 ->
  exists text,
    run (cancel_event booking_id cancellation_reason) w = Ok text
    /\ text = "❌ Cancellation failed: Booking " +:+ str_int booking_id
              +:+ " not found"
    /\ contains (str_int booking_id) text = true
    /\ contains "not found" text = true.
Proof.
  intros Hkey Hne Hrem Hs. eexists. split; [|split; [reflexivity|split]].
  - unfold run. rewrite (cancel_event_ready _ _ _ _ Hkey Hne), Hrem.
    destruct (http_error_msg_some r ltac:(lia)) as [msg ->].
    unfold cancel_handlers. simpl. by rewrite Hs.
  - apply contains_middle.
  - do 2 apply contains_append_r. reflexivity.
Qed.

(** Every text [cancel_event] returns starts with another byte than the
    text for an invalid identifier. *)
Lemma cancel_event_head (w : world) (booking_id : Z)
    (cancellation_reason text : string) :
  run (cancel_event booking_id cancellation_reason) w = Ok text ->
  head_char text <> head_char (invalid_booking_id EmptyString).
Proof.
  unfold cancel_event, cancel_handlers. unfold_m.
  repeat (case_match; simpl in *; simplify_eq; try discriminate);
    intros; simplify_eq; discriminate.
Qed.

(** C6. For an identifier that [int] rejects, [cancel_calendar_booking]
    returns the text for an invalid booking id, a text [cancel_event] never
    returns, and issues no request: the world, and with it the log of
    requests, is unchanged. For an identifier that [int] accepts, it is
    [cancel_event] on that integer. *)
Theorem cancel_tool_checks_the_identifier (w : world)
    (booking_identifier cancellation_reason : string) :
  (int_of_str booking_identifier = None ->
     cancel_calendar_booking booking_identifier cancellation_reason w
     = (Ok (invalid_booking_id booking_identifier), w)
     /\ calls_after
          (cancel_calendar_booking booking_identifier cancellation_reason) w
        = calls w
     /\ forall w' n reason,
          run (cancel_event n reason) w'
          <> Ok (invalid_booking_id booking_identifier))
  /\ (forall booking_id, int_of_str booking_identifier = Some booking_id ->
        cancel_calendar_booking booking_identifier cancellation_reason w
        = cancel_event booking_id cancellation_reason w).
Proof.
  split.
  - intros Hint. unfold cancel_calendar_booking, calls_after.
    rewrite Hint. split; [done|]. split; [done|].
    intros w' n reason Hrun. by apply cancel_event_head in Hrun.
  - intros booking_id Hint. unfold cancel_calendar_booking. by rewrite Hint.
Qed.

End Cancelling.

Section CancellingExamples.
Import Py Net CalApi Main Samples Reference.

Lemma cancel_not_found_example :
  exists text,
    run (cancel_event 9184891 "Schedule conflict") (world_of env_full not_found)
    = Ok text
    /\ text = "❌ Cancellation failed: Booking " +:+ str_int 9184891
              +:+ " not found"
    /\ contains (str_int 9184891) text = true
    /\ contains "not found" text = true.
Proof.
  apply (cancel_not_found_names_the_booking (world_of env_full not_found)
           "cal_live_key" 9184891 "Schedule conflict"
           (Response 404 "Not Found"
              "https://api.cal.com/v1/bookings/9184891/cancel"
              (message_body "Booking not found"))).
  - reflexivity.
  - discriminate.
  - reflexivity.
  - reflexivity.
Defined.

(** The identifier "abc": the text for an invalid id, and no request. *)
Lemma cancel_tool_rejects_abc :
  run (cancel_calendar_booking "abc" default_cancellation_reason)
      (world_of env_full not_found)
  = Ok (invalid_booking_id "abc")
  /\ calls_after (cancel_calendar_booking "abc" default_cancellation_reason)
       (world_of env_full not_found) = []
  /\ cancel_calendar_booking "12345" default_cancellation_reason
       (world_of env_full not_found)
     = cancel_event 12345 default_cancellation_reason
         (world_of env_full not_found).
Proof.
  destruct (cancel_tool_checks_the_identifier (world_of env_full not_found)
              "abc" default_cancellation_reason) as (Hbad & _).
  destruct (Hbad eq_refl) as (Hrun & Hcalls & _).
  split; [unfold run; by rewrite Hrun|]. split; [exact Hcalls|].
  destruct (cancel_tool_checks_the_identifier (world_of env_full not_found)
              "12345" default_cancellation_reason) as (_ & Hgood).
  apply Hgood. reflexivity.
Defined.

End CancellingExamples.

(** * Further properties of the code *)

(** ** Listing, beyond the mapping of records *)

Section ListingMore.
Import Py Net CalApi Main Views.
Context `{Interpreter}.

Ltac unfold_m :=
  unfold run, calls_after, mbind, mret, M_bind, M_ret, try_except, attempt,
    raise, lift, getenv, send, json, raise_for_status in *.

(** X1. With the key configured, [get_scheduled_events] issues exactly one
    request, the same for every [user_email] and every reply: the list
    request with the key as its only parameter. *)
Theorem list_events_sends_one_request (w : world) (user_email key : string) :
  environ w !! "CAL_API_KEY" = Some key -> key <> EmptyString ->
  calls_after (get_scheduled_events user_email) w
  = calls w ++ [list_request key].
Proof.
  intros Hkey Hne. unfold get_scheduled_events. unfold_m.
  rewrite Hkey, (truthy_Some _ Hne). simpl.
  destruct (remote w (list_request key)) as [r|e]; simpl.
  2:{ by destruct (is_RequestException e), (is_KeyError e). }
  destruct (http_error_msg r); simpl; [done|].
  destruct (json_result r) as [v|e]; simpl.
  2:{ by destruct (is_RequestException e), (is_KeyError e). }
  destruct (py_get v "bookings" (PList [])) as [b|e]; simpl.
  2:{ by destruct (is_RequestException e), (is_KeyError e). }
  destruct (py_iter b) as [records|e]; simpl.
  2:{ by destruct (is_RequestException e), (is_KeyError e). }
  destruct (simplify_events user_email records) as [evs|e]; simpl; [done|].
  by destruct (is_RequestException e), (is_KeyError e).
Qed.

Lemma simplify_events_not_dict (user_email : string) (bookings : list pyval) :
  existsb (fun v => negb (is_dict v)) bookings = true ->
  exists e, simplify_events user_email bookings = Raise e.
Proof.
  induction bookings as [|b bookings IH]; [done|].
  simpl. intros Hex. destruct b; simpl in *; eauto.
  destruct (IH Hex) as [e ->]. eauto.
Qed.

(** X2. One record that is no object spoils the whole list: the events built
    from the records before it are dropped and the result is empty. *)
Theorem list_events_all_or_nothing (w : world) (user_email key : string)
    (r : response) (d : gmap string pyval) (bookings : list pyval) :
  environ w !! "CAL_API_KEY" = Some key -> key <> EmptyString ->
  remote w (list_request key) = Answered r ->
  ~ (400 <= status_code r < 600) ->
  json_result r = Ok (PDict d) ->
  d !! "bookings" = Some (PList bookings) ->
  existsb (fun v => negb (is_dict v)) bookings = true ->
  run (get_scheduled_events user_email) w = Ok [].
Proof.
  intros Hkey Hne Hrem Hst Hjson Hb Hex.
  unfold get_scheduled_events. unfold_m.
  rewrite Hkey, (truthy_Some _ Hne). simpl.
  rewrite Hrem, (http_error_msg_none _ Hst). simpl.
  rewrite Hjson. simpl. rewrite Hb. simpl.
  destruct (simplify_events_not_dict user_email bookings Hex) as [e ->].
  by destruct (is_RequestException e), (is_KeyError e).
Qed.

Lemma simplify_events_other_email (e1 e2 : string) (bookings : list pyval) :
  match simplify_events e1 bookings with
  | Ok evs => simplify_events e2 bookings = Ok (with_attendee e2 <$> evs)
  | Raise e => simplify_events e2 bookings = Raise e
  end.
Proof.
  induction bookings as [|b bookings IH]; [done|].
  simpl. destruct b; simpl; try done.
  destruct (simplify_events e1 bookings) as [evs|e]; rewrite IH; done.
Qed.

(** X3. The [user_email] argument selects nothing: for two addresses the same
    bookings are listed, and the events differ in the attendee e-mail
    only. *)
Theorem list_events_email_only_labels (w : world) (email1 email2 : string)
    (evs : list event) :
  run (get_scheduled_events email1) w = Ok evs ->
  run (get_scheduled_events email2) w = Ok (with_attendee email2 <$> evs).
Proof.
  unfold get_scheduled_events. unfold_m.
  destruct (truthy (environ w !! "CAL_API_KEY")); simpl; [|done].
  destruct (remote w _) as [r|e]; simpl.
  2:{ destruct (is_RequestException e), (is_KeyError e);
        simpl; by intros [= <-]. }
  destruct (http_error_msg r); simpl; [by intros [= <-]|].
  destruct (json_result r) as [v|e]; simpl.
  2:{ destruct (is_RequestException e), (is_KeyError e);
        simpl; by intros [= <-]. }
  destruct (py_get v "bookings" (PList [])) as [b|e]; simpl.
  2:{ destruct (is_RequestException e), (is_KeyError e);
        simpl; by intros [= <-]. }
  destruct (py_iter b) as [records|e]; simpl.
  2:{ destruct (is_RequestException e), (is_KeyError e);
        simpl; by intros [= <-]. }
  pose proof (simplify_events_other_email email1 email2 records) as Hother.
  destruct (simplify_events email1 records) as [evs1|e]; rewrite Hother; simpl.
  - by intros [= <-].
  - destruct (is_RequestException e), (is_KeyError e); simpl; by intros [= <-].
Qed.

(** X4. [list_user_events] labels every event with [DEFAULT_USER_EMAIL] when
    the variable is set, also when it is set to the empty string, and with
    the built-in address when it is not set. *)
Theorem list_user_events_default_email (w : world) (evs : list event) :
  run list_user_events w = Ok evs ->
  Forall (fun ev => attendee_email ev
                    = default "song.wd@icloud.com"
                        (environ w !! "DEFAULT_USER_EMAIL")) evs.
Proof.
  unfold list_user_events, getenv_default. unfold_m. simpl.
  set (email := default "song.wd@icloud.com" _).
  intros Hrun.
  assert (Hrun' : run (get_scheduled_events email) w = Ok evs) by exact Hrun.
  clear Hrun. revert Hrun'.
  unfold get_scheduled_events. unfold_m.
  destruct (truthy (environ w !! "CAL_API_KEY")); simpl; [|done].
  destruct (remote w _) as [r|e]; simpl.
  2:{ destruct (is_RequestException e), (is_KeyError e);
        simpl; intros [= <-]; constructor. }
  destruct (http_error_msg r); simpl; [intros [= <-]; constructor|].
  destruct (json_result r) as [v|e]; simpl.
  2:{ destruct (is_RequestException e), (is_KeyError e);
        simpl; intros [= <-]; constructor. }
  destruct (py_get v "bookings" (PList [])) as [b|e]; simpl.
  2:{ destruct (is_RequestException e), (is_KeyError e);
        simpl; intros [= <-]; constructor. }
  destruct (py_iter b) as [records|e]; simpl.
  2:{ destruct (is_RequestException e), (is_KeyError e);
        simpl; intros [= <-]; constructor. }
  destruct (simplify_events email records) as [evs1|e] eqn:Hev; simpl.
  - intros [= <-]. by eapply simplify_events_attendee.
  - destruct (is_RequestException e), (is_KeyError e);
      simpl; intros [= <-]; constructor.
Qed.

End ListingMore.

(** ** Booking, beyond the texts of the error statuses *)

Section BookingMore.
Import Py Net CalApi Main Views.
Context `{Interpreter}.

Ltac unfold_m :=
  unfold run, calls_after, mbind, mret, M_bind, M_ret, try_except, attempt,
    raise, lift, getenv, send, json, raise_for_status in *.

(** X5. Without its configuration [book_event] answers with a text and leaves
    the world alone: the key is asked for first, the event type second. *)
Theorem booking_needs_configuration (w : world)
    (start_time user_email event_title : string) :
  (truthy (environ w !! "CAL_API_KEY") = false ->
     book_event start_time user_email event_title w
     = (Ok "Error: CAL_API_KEY not found in environment variables", w))
  /\ (truthy (environ w !! "CAL_API_KEY") = true ->
      truthy (environ w !! "CAL_EVENT_TYPE_ID") = false ->
      book_event start_time user_email event_title w
      = (Ok "Error: CAL_EVENT_TYPE_ID not found in environment variables", w)).
Proof.
  split.
  - intros Hk. unfold book_event. unfold_m. by rewrite Hk.
  - intros Hk He. unfold book_event. unfold_m. by rewrite Hk, He.
Qed.

(** X6. A start time that is turned down, because
    [datetime.fromisoformat] raises on it or because its end would pass
    year 9999, is answered before anything else happens: no request is
    sent, and the event type is not even read as an integer. *)
Theorem booking_invalid_start_sends_nothing (w : world)
    (start_time user_email event_title : string) (e : exn) :
  truthy (environ w !! "CAL_API_KEY") = true ->
  truthy (environ w !! "CAL_EVENT_TYPE_ID") = true ->
  booking_end_time start_time = Raise e ->
  book_event start_time user_email event_title w
  = (Ok "❌ Booking failed: Invalid start time format", w).
Proof.
  intros Hk He Hend. unfold book_event. unfold_m.
  by rewrite Hk, He, Hend.
Qed.

(** X7. With an event type that is no integer, [book_event] raises
    [ValueError] to its caller, after the start time was accepted and
    before any request. *)
Theorem booking_raises_on_event_type (w : world) (key t : string)
    (start_time end_time user_email event_title : string) :
  environ w !! "CAL_API_KEY" = Some key -> key <> EmptyString ->
  environ w !! "CAL_EVENT_TYPE_ID" = Some t -> t <> EmptyString ->
  booking_end_time start_time = Ok end_time ->
  int_of_str t = None ->
  exists msg,
    book_event start_time user_email event_title w
    = (Raise (Exn ValueError msg), w).
Proof.
  intros Hk Hne Ht Hte Hend Hint. unfold book_event. unfold_m.
  rewrite Hk, Ht, (truthy_Some _ Hne), (truthy_Some _ Hte). simpl.
  rewrite Hend, Hint. eauto.
Qed.

(** X8. When the transport fails before any response, the failure is reported
    in the returned text, by the class of the exception. *)
Theorem booking_transport_failure (w : world) (key : string) (etid : Z)
    (start_time end_time user_email event_title : string) (e : exn) :
  booking_ready w key etid start_time end_time ->
  remote w (booking_request_of key etid start_time end_time
              user_email event_title) = Failed e ->
  is_HTTPError e = false ->
  run (book_event start_time user_email event_title) w
  = Ok (if is_RequestException e then
          "❌ Booking failed: Network error - " +:+ exn_msg e
        else if is_ValueError e then
          "❌ Booking failed: Invalid data format - " +:+ exn_msg e
        else "❌ Booking failed: Unexpected error - " +:+ exn_msg e).
Proof.
  intros Hready Hrem Hhttp. unfold run.
  rewrite (book_event_ready _ _ _ _ _ _ _ Hready), Hrem.
  unfold booking_handlers. rewrite Hhttp. unfold_m.
  by destruct (is_RequestException e), (is_ValueError e).
Qed.

(** X9. A reply without error status and with a JSON object confirms the
    booking: the text carries the title, the id of the reply, or "Unknown"
    when the reply has none, and the start time as given. *)
Theorem booking_confirmation (w : world) (key : string) (etid : Z)
    (start_time end_time user_email event_title : string) (r : response)
    (d : gmap string pyval) :
  booking_ready w key etid start_time end_time ->
  remote w (booking_request_of key etid start_time end_time
              user_email event_title) = Answered r ->
  ~ (400 <= status_code r < 600) ->
  json_result r = Ok (PDict d) ->
  run (book_event start_time user_email event_title) w
  = Ok ("✅ Event '" +:+ event_title +:+ "' successfully booked! Booking ID: "
        +:+ py_str (default (PStr "Unknown") (d !! "id"))
        +:+ ", Start time: " +:+ start_time)
  /\ (d !! "id" = None ->
      run (book_event start_time user_email event_title) w
      = Ok ("✅ Event '" +:+ event_title
            +:+ "' successfully booked! Booking ID: Unknown, Start time: "
            +:+ start_time)).
Proof.
  intros Hready Hrem Hst Hjson.
  assert (Hrun : run (book_event start_time user_email event_title) w
                 = Ok (booking_success event_title
                         (default (PStr "Unknown") (d !! "id")) start_time)).
  { unfold run. rewrite (book_event_ready _ _ _ _ _ _ _ Hready), Hrem.
    by rewrite (http_error_msg_none _ Hst), Hjson. }
  split; [exact Hrun|].
  intros Hid. rewrite Hrun, Hid. reflexivity.
Qed.

(** X10. Once its configuration is read and the start accepted, [book_event]
    returns a text whatever the remote service does, as long as the
    transport itself does not raise an [HTTPError]. *)
Theorem booking_always_answers (w : world) (key : string) (etid : Z)
    (start_time end_time user_email event_title : string) :
  booking_ready w key etid start_time end_time ->
  (forall e, remote w (booking_request_of key etid start_time end_time
                         user_email event_title) = Failed e ->
             is_HTTPError e = false) ->
  exists text,
    run (book_event start_time user_email event_title) w = Ok text.
Proof.
  intros Hready Hfail. unfold run.
  rewrite (book_event_ready _ _ _ _ _ _ _ Hready).
  destruct (remote w _) as [r|e] eqn:Hrem.
  - destruct (http_error_msg r) as [msg|].
    { rewrite booking_handlers_http. eauto. }
    destruct (json_result r) as [v|e].
    2:{ unfold booking_handlers. unfold_m. repeat case_match; eauto. }
    destruct (py_get v "id" (PStr "Unknown")) as [b|e]; [eauto|].
    unfold booking_handlers. unfold_m. repeat case_match; eauto.
  - specialize (Hfail e eq_refl).
    unfold booking_handlers. rewrite Hfail. unfold_m.
    repeat case_match; eauto.
Qed.

(** X11. The request of a booking is a POST to the bookings URL with the key in
    the query string and no other parameter; its payload names the event
    type as an integer, the attendee by the e-mail given, the status
    PENDING and the time zone UTC, and describes the booking by its
    title. *)
Theorem booking_request_shape (w : world) (key : string) (etid : Z)
    (start_time end_time user_email event_title : string) :
  booking_ready w key etid start_time end_time ->
  exists req,
    calls_after (book_event start_time user_email event_title) w
    = calls w ++ [req]
    /\ req_method req = POST
    /\ req_url req = "https://api.cal.com/v1/bookings?apiKey=" +:+ key
    /\ req_params req = []
    /\ payload_field req "eventTypeId" = Some (PInt etid)
    /\ payload_field req "status" = Some (PStr "PENDING")
    /\ payload_field req "timeZone" = Some (PStr "UTC")
    /\ payload_field req "title" = Some (PStr event_title)
    /\ payload_field req "description"
       = Some (PStr ("Booked via API: " +:+ event_title))
    /\ exists responses,
         payload_field req "responses" = Some (PDict responses)
         /\ responses !! "email" = Some (PStr user_email)
         /\ responses !! "name"
            = Some (PStr (str_title (replace "." " "
                                       (split_head "@" user_email)))).
Proof.
  intros Hready. eexists. split; [by apply book_event_calls|].
  repeat split; try reflexivity.
  eexists. split; [reflexivity|]. split; reflexivity.
Qed.

(** X12. A 400 reply whose body gives no usable message is answered with the
    plain "Bad request" text: a body that is no JSON, no object, or an
    object without message or with a message that is neither a string nor a
    container. *)
Theorem booking_bad_request_fallback (w : world) (key : string) (etid : Z)
    (start_time end_time user_email event_title : string) (r : response) :
  booking_ready w key etid start_time end_time ->
  remote w (booking_request_of key etid start_time end_time
              user_email event_title) = Answered r ->
  status_code r = 400 ->
  match json_result r with
  | Raise _ => True
  | Ok (PDict d) =>
      match d !! "message" with
      | None | Some PNone | Some (PBool _) | Some (PInt _)
      | Some (PFloat _) => True
      | _ => False
      end
  | Ok _ => True
  end ->
  run (book_event start_time user_email event_title) w
  = Ok "❌ Booking failed: Bad request".
Proof.
  intros Hready Hrem Hs Hbody.
  destruct (book_event_error_status _ _ _ _ _ _ _ _ Hready Hrem ltac:(lia))
    as (msg & _ & ->).
  rewrite Hs. simpl. unfold booking_bad_request.
  destruct (json_result r) as [v|e]; [|done].
  destruct v as [| | | | | |d]; try done.
  simpl. destruct (d !! "message") as [[| | | | | |]|]; done.
Qed.

End BookingMore.

(** ** Cancelling, beyond the 404 *)

Section CancellingMore.
Import Py Net CalApi Main Views.
Context `{Interpreter}.

Ltac unfold_m :=
  unfold run, calls_after, mbind, mret, M_bind, M_ret, try_except, attempt,
    raise, lift, getenv, send, json, raise_for_status in *.

Lemma cancel_handlers_world (booking_id : Z) (resp : option response)
    (e : exn) (w : world) :
  (cancel_handlers booking_id resp e w).2 = w.
Proof.
  unfold cancel_handlers. unfold_m.
  destruct (is_HTTPError e); [|by destruct (is_RequestException e)].
  destruct resp as [r|]; [|done].
  destruct (status_code r =? 400).
  { simpl. destruct (json_result r) as [v|]; [|done].
    by destruct (py_get v "message" (PStr "Bad request")). }
  by repeat case_match.
Qed.

(** X13. Without the key [cancel_event] answers with a text and sends
    nothing. *)
Theorem cancel_needs_key (w : world) (booking_id : Z)
    (cancellation_reason : string) :
  truthy (environ w !! "CAL_API_KEY") = false ->
  cancel_event booking_id cancellation_reason w
  = (Ok "Error: CAL_API_KEY not found in environment variables", w).
Proof.
  intros Hk. unfold cancel_event. unfold_m. by rewrite Hk.
Qed.

(** X14. With the key, [cancel_event] issues exactly one request whatever the
    reply: a DELETE on the URL of that booking id, with the key and the
    reason as its parameters. *)
Theorem cancel_sends_one_request (w : world) (key : string) (booking_id : Z)
    (cancellation_reason : string) :
  environ w !! "CAL_API_KEY" = Some key -> key <> EmptyString ->
  exists req,
    calls_after (cancel_event booking_id cancellation_reason) w
    = calls w ++ [req]
    /\ req_method req = DELETE
    /\ req_url req = "https://api.cal.com/v1/bookings/"
                     +:+ str_int booking_id +:+ "/cancel"
    /\ req_params req = [("apiKey", key);
                         ("cancellationReason", cancellation_reason)]
    /\ req_json req = None.
Proof.
  intros Hkey Hne.
  exists (cancel_request key booking_id cancellation_reason).
  split; [|repeat split; reflexivity].
  unfold calls_after. rewrite (cancel_event_ready _ _ _ _ Hkey Hne).
  repeat case_match; by rewrite ?cancel_handlers_world.
Qed.

(** X15. A reply without error status confirms the cancellation with a text that
    holds the booking id and the reason. *)
Theorem cancel_confirmation (w : world) (key : string) (booking_id : Z)
    (cancellation_reason : string) (r : response) :
  environ w !! "CAL_API_KEY" = Some key -> key <> EmptyString ->
  remote w (cancel_request key booking_id cancellation_reason) = Answered r ->
  ~ (400 <= status_code r < 600) ->
  exists text,
    run (cancel_event booking_id cancellation_reason) w = Ok text
    /\ text = "✅ Booking " +:+ str_int booking_id
              +:+ " successfully cancelled. Reason: " +:+ cancellation_reason
    /\ contains (str_int booking_id) text = true
    /\ contains cancellation_reason text = true.
Proof.
  intros Hkey Hne Hrem Hst. eexists. split; [|split; [reflexivity|split]].
  - unfold run. rewrite (cancel_event_ready _ _ _ _ Hkey Hne), Hrem.
    by rewrite (http_error_msg_none _ Hst).
  - apply contains_middle.
  - do 3 apply contains_append_r. apply contains_prefix.
    rewrite <- (append_empty_r cancellation_reason) at 2.
    apply prefix_append.
Qed.

(** X16. The error statuses of a cancellation: the message of a 400 reply is
    passed on as it is, also when it is the message that [book_event]
    rewrites; 401 gives the unauthorized text; every other error status but
    404 gives the generic text with the status code. *)
Theorem cancel_failure_texts (w : world) (key : string) (booking_id : Z)
    (cancellation_reason : string) (r : response) :
  environ w !! "CAL_API_KEY" = Some key -> key <> EmptyString ->
  remote w (cancel_request key booking_id cancellation_reason) = Answered r ->
  let result := run (cancel_event booking_id cancellation_reason) w in
  (forall d msg,
     status_code r = 400 -> json_result r = Ok (PDict d) ->
     d !! "message" = Some (PStr msg) ->
     result = Ok ("❌ Cancellation failed: " +:+ msg))
  /\ (forall d,
        status_code r = 400 -> json_result r = Ok (PDict d) ->
        d !! "message" = None ->
        result = Ok "❌ Cancellation failed: Bad request")
  /\ (status_code r = 401 ->
      result = Ok "❌ Cancellation failed: Invalid API key or unauthorized access")
  /\ (400 <= status_code r < 600 -> status_code r <> 400 ->
      status_code r <> 401 -> status_code r <> 404 ->
      exists detail,
        result = Ok ("❌ Cancellation failed: HTTP "
                     +:+ str_int (status_code r) +:+ " - " +:+ detail)).
Proof.
  intros Hkey Hne Hrem result. subst result. unfold run.
  rewrite (cancel_event_ready _ _ _ _ Hkey Hne), Hrem.
  split; [|split; [|split]].
  - intros d msg Hs Hjson Hmsg.
    destruct (http_error_msg_some r ltac:(lia)) as [m ->].
    unfold cancel_handlers. simpl. rewrite Hs. simpl. unfold_m.
    rewrite Hjson. simpl. by rewrite Hmsg.
  - intros d Hs Hjson Hmsg.
    destruct (http_error_msg_some r ltac:(lia)) as [m ->].
    unfold cancel_handlers. simpl. rewrite Hs. simpl. unfold_m.
    rewrite Hjson. simpl. by rewrite Hmsg.
  - intros Hs. destruct (http_error_msg_some r ltac:(lia)) as [m ->].
    unfold cancel_handlers. simpl. by rewrite Hs.
  - intros Hs H400 H401 H404.
    destruct (http_error_msg_some r Hs) as [m ->].
    unfold cancel_handlers. simpl.
    apply Z.eqb_neq in H400, H401, H404. rewrite H400, H401, H404.
    by exists m.
Qed.

(** X17. On a 400 reply whose body is no JSON, or no object, [cancel_event]
    raises to its caller: nothing guards the reading of the message. *)
Theorem cancel_raises_on_unreadable_400 (w : world) (key : string)
    (booking_id : Z) (cancellation_reason : string) (r : response) :
  environ w !! "CAL_API_KEY" = Some key -> key <> EmptyString ->
  remote w (cancel_request key booking_id cancellation_reason) = Answered r ->
  status_code r = 400 ->
  (forall e, json_result r = Raise e ->
     run (cancel_event booking_id cancellation_reason) w = Raise e)
  /\ (forall v, json_result r = Ok v -> is_dict v = false ->
        exists msg,
          run (cancel_event booking_id cancellation_reason) w
          = Raise (Exn AttributeError msg)).
Proof.
  intros Hkey Hne Hrem Hs. unfold run.
  rewrite (cancel_event_ready _ _ _ _ Hkey Hne), Hrem.
  destruct (http_error_msg_some r ltac:(lia)) as [m ->].
  unfold cancel_handlers. simpl. rewrite Hs. simpl. unfold_m.
  split.
  - intros e ->. done.
  - intros v -> Hv. destruct v; try done; simpl; eauto.
Qed.

(** X18. When the transport fails before any response, [cancel_event] reports
    the failure in the returned text. *)
Theorem cancel_transport_failure (w : world) (key : string) (booking_id : Z)
    (cancellation_reason : string) (e : exn) :
  environ w !! "CAL_API_KEY" = Some key -> key <> EmptyString ->
  remote w (cancel_request key booking_id cancellation_reason) = Failed e ->
  is_HTTPError e = false ->
  run (cancel_event booking_id cancellation_reason) w
  = Ok (if is_RequestException e then
          "❌ Cancellation failed: Network error - " +:+ exn_msg e
        else "❌ Cancellation failed: Unexpected error - " +:+ exn_msg e).
Proof.
  intros Hkey Hne Hrem Hhttp. unfold run.
  rewrite (cancel_event_ready _ _ _ _ Hkey Hne), Hrem.
  unfold cancel_handlers. rewrite Hhttp. unfold_m.
  by destruct (is_RequestException e).
Qed.

(** X19. The cancellation tool, given an identifier that reads as the integer
    [n], sends the one request of [cancel_event] for [n]: the white space,
    sign or underscores of the identifier do not reach the URL. *)
Theorem cancel_tool_request (w : world) (key : string)
    (booking_identifier cancellation_reason : string) (n : Z) :
  environ w !! "CAL_API_KEY" = Some key -> key <> EmptyString ->
  int_of_str booking_identifier = Some n ->
  calls_after (cancel_calendar_booking booking_identifier cancellation_reason) w
  = calls w ++ [cancel_request key n cancellation_reason].
Proof.
  intros Hkey Hne Hint. unfold calls_after, cancel_calendar_booking.
  rewrite Hint, (cancel_event_ready _ _ _ _ Hkey Hne).
  repeat case_match; by rewrite ?cancel_handlers_world.
Qed.

End CancellingMore.

(** ** Whole sessions of the history *)

Section Sessions.
Import History App.
Implicit Types (h pre : list message) (turns : list (string * string)).

Lemma transcript_cons (t : string * string) turns :
  transcript (t :: turns) = [HumanMessage t.1; AIMessage t.2] ++ transcript turns.
Proof. reflexivity. Qed.

Lemma transcript_length turns :
  length (transcript turns) = (2 * length turns)%nat.
Proof.
  induction turns as [|t turns IH]; [done|].
  rewrite transcript_cons, length_app, IH. simpl. lia.
Qed.

(** One more turn on a history that is the tail of what was said so far
    gives the tail of what was said then. *)
Lemma append_and_limit_tail (cap : nat) pre (u a : string) :
  (0 < cap)%nat ->
  append_and_limit cap (drop (length pre - cap) pre) u a
  = drop (length (pre ++ [HumanMessage u; AIMessage a]) - cap)
      (pre ++ [HumanMessage u; AIMessage a]).
Proof.
  intros Hcap. rewrite append_and_limit_drop by done.
  rewrite length_drop, length_app. simpl.
  destruct (decide (length pre <= cap)%nat) as [Hle|Hgt].
  - replace (length pre - cap)%nat with 0%nat by lia. simpl.
    f_equal. lia.
  - replace (length pre - (length pre - cap) + 2 - cap)%nat with 2%nat by lia.
    replace (length pre + 2 - cap)%nat with ((length pre - cap) + 2)%nat by lia.
    rewrite <- drop_drop. f_equal. rewrite drop_app_le by lia. done.
Qed.

Lemma session_tail (cap : nat) turns :
  (0 < cap)%nat ->
  forall pre,
    foldl (fun s t => append_and_limit cap s t.1 t.2)
      (drop (length pre - cap) pre) turns
    = drop (length (pre ++ transcript turns) - cap) (pre ++ transcript turns).
Proof.
  intros Hcap. induction turns as [|t turns IH]; intros pre.
  - simpl. by rewrite app_nil_r.
  - simpl foldl. rewrite append_and_limit_tail by done.
    rewrite IH, transcript_cons, <- app_assoc. done.
Qed.

Lemma ui_session_history (st : session_state) turns :
  chat_history (ui_session st turns)
  = foldl (fun s t => append_and_limit 20 s t.1 t.2) (chat_history st) turns.
Proof.
  revert st. induction turns as [|t turns IH]; intros st; [done|].
  simpl. by rewrite IH.
Qed.

Lemma ui_session_messages (st : session_state) turns :
  messages (ui_session st turns) = messages st ++ displayed turns.
Proof.
  revert st. induction turns as [|t turns IH]; intros st.
  - simpl. by rewrite app_nil_r.
  - simpl. rewrite IH. simpl. by rewrite <- !app_assoc.
Qed.

(** X20. After any number of turns from the empty history, the history of the
    web UI is exactly the last 20 messages of everything said, in order,
    and the history of the command-line loop the last 10 (all of it while
    it is shorter). *)
Theorem session_history_is_tail_of_transcript
    (turns : list (string * string)) :
  chat_history (ui_session initial_state turns)
  = drop (length (transcript turns) - 20) (transcript turns)
  /\ cli_session [] turns
     = drop (length (transcript turns) - 10) (transcript turns)
  /\ length (transcript turns) = (2 * length turns)%nat.
Proof.
  split; [|split].
  - rewrite ui_session_history. exact (session_tail 20 turns ltac:(lia) []).
  - exact (session_tail 10 turns ltac:(lia) []).
  - apply transcript_length.
Qed.

Lemma as_history_displayed turns :
  as_history (displayed turns) = transcript turns.
Proof.
  unfold as_history.
  induction turns as [|t turns IH]; [done|].
  change (displayed (t :: turns))
    with ([("user", t.1); ("assistant", t.2)] ++ displayed turns).
  rewrite fmap_app, IH. done.
Qed.

(** X21. The list displayed by the web UI is never cut: after any number of
    turns it holds every message, two per turn, and read as messages it is
    the whole transcript, of which the history is the tail. *)
Theorem display_keeps_everything (turns : list (string * string)) :
  let st := ui_session initial_state turns in
  messages st = displayed turns
  /\ length (messages st) = (2 * length turns)%nat
  /\ as_history (messages st) = transcript turns
  /\ chat_history st
     = drop (length (messages st) - 20) (as_history (messages st)).
Proof.
  intros st. subst st.
  assert (Hm : messages (ui_session initial_state turns) = displayed turns)
    by (by rewrite ui_session_messages).
  assert (Ha := as_history_displayed turns).
  assert (Hl : length (displayed turns) = (2 * length turns)%nat).
  { rewrite <- transcript_length, <- Ha. unfold as_history.
    by rewrite length_fmap. }
  rewrite Hm, Ha, Hl. repeat split; try done.
  rewrite <- transcript_length, ui_session_history.
  exact (session_tail 20 turns ltac:(lia) []).
Qed.

End Sessions.

(** ** The command-line chat loop *)

Section ChatLoop.
Import Py Net History Agent Cli.
Context (strip lower : string -> string)
        (invoke : string -> list message -> M agent_result).

Ltac unfold_m :=
  unfold run, calls_after, mbind, mret, M_bind, M_ret, try_except, attempt,
    raise, lift, getenv in *.

(** What one round does to the history. *)
Lemma chat_round_cases (line : string) (h : list message) (w : world) :
  exists r w',
    chat_round strip lower invoke line h w = (Ok r, w')
    /\ (r = None \/ r = Some h
        \/ exists text, r = Some (cli_update h (strip line) text)).
Proof.
  unfold chat_round. unfold_m.
  destruct (bool_decide (lower (strip line) ∈ quit_words)); [eauto 6|].
  destruct (bool_decide (strip line = EmptyString)); [eauto 6|].
  destruct (invoke (strip line) h w) as [[res|e] w']; eauto 8.
Qed.

(** The rounds that changed the history, as turns. *)
Lemma chat_loop_is_a_session (events : list stdin_event) :
  forall h w, exists status turns w',
    chat_loop strip lower invoke events h w
    = (Ok (status, cli_session h turns), w')
    /\ (length turns <= length events)%nat.
Proof.
  induction events as [|ev events IH]; intros h w.
  - exists Reading, [], w. split; [done|]. simpl. lia.
  - destruct ev as [line| |].
    + simpl. unfold mbind, M_bind.
      destruct (chat_round_cases line h w) as (r & w1 & -> & Hr).
      destruct Hr as [->|[->|[text ->]]].
      * exists Left, [], w1. split; [done|]. simpl. lia.
      * destruct (IH h w1) as (status & turns & w' & -> & Hlen).
        exists status, turns, w'. split; [done|]. simpl. lia.
      * destruct (IH (cli_update h (strip line) text) w1)
          as (status & turns & w' & -> & Hlen).
        exists status, ((strip line, text) :: turns), w'.
        split; [done|]. simpl. lia.
    + exists Left, [], w. split; [done|]. simpl. lia.
    + destruct (IH h w) as (status & turns & w' & Hloop & Hlen).
      exists status, turns, w'. split; [exact Hloop|]. simpl. lia.
Qed.

(** X22. The chat loop never raises, whatever is typed and whatever the agent
    does, and the history it holds is the one of a session of turns, at
    most one per input event: it never exceeds ten messages. *)
Theorem chat_loop_keeps_the_cap (events : list stdin_event) (w : world) :
  exists status turns w',
    chat_loop strip lower invoke events [] w
    = (Ok (status, cli_session [] turns), w')
    /\ (length turns <= length events)%nat
    /\ (length (cli_session [] turns) <= 10)%nat.
Proof.
  destruct (chat_loop_is_a_session events [] w)
    as (status & turns & w' & Hloop & Hlen).
  exists status, turns, w'. split; [exact Hloop|]. split; [exact Hlen|].
  apply cli_session_bound. simpl. lia.
Qed.

(** X23. A line that reads as one of the quit words ends the loop at once: the
    agent is not invoked for it, the history stays, and nothing typed
    afterwards is looked at. *)
Theorem quit_ends_the_chat (line : string) (h : list message) (w : world)
    (before after : list stdin_event) :
  lower (strip line) ∈ quit_words ->
  chat_loop strip lower invoke (Typed line :: after) h w = (Ok (Left, h), w)
  /\ chat_loop strip lower invoke (before ++ Typed line :: after) h w
     = chat_loop strip lower invoke (before ++ [Typed line]) h w.
Proof.
  intros Hquit.
  assert (Hround : forall h' w',
             chat_round strip lower invoke line h' w' = (Ok None, w')).
  { intros h' w'. unfold chat_round.
    by rewrite bool_decide_eq_true_2. }
  split.
  - simpl. unfold mbind, M_bind. by rewrite Hround.
  - revert h w. induction before as [|ev before IH]; intros h w.
    + simpl. unfold mbind, M_bind. by rewrite !Hround.
    + destruct ev as [l| |]; simpl; [|done|apply IH].
      unfold mbind, M_bind.
      destruct (chat_round strip lower invoke l h w) as [[[h1|]|e] w1];
        [apply IH|done|done].
Qed.

(** X24. A round leaves the history as it is for a blank line, without invoking
    the agent, and for an invocation that raises; a successful invocation
    is given the stripped line and the current history, and its output is
    recorded with that line. *)
Theorem chat_round_records_successes_only (line : string)
    (h : list message) (w : world) :
  lower (strip line) ∉ quit_words ->
  (strip line = EmptyString ->
     chat_round strip lower invoke line h w = (Ok (Some h), w))
  /\ (strip line <> EmptyString ->
      forall e w', invoke (strip line) h w = (Raise e, w') ->
        chat_round strip lower invoke line h w = (Ok (Some h), w'))
  /\ (strip line <> EmptyString ->
      forall res w', invoke (strip line) h w = (Ok res, w') ->
        chat_round strip lower invoke line h w
        = (Ok (Some (cli_update h (strip line) (output res))), w')).
Proof.
  intros Hquit. unfold chat_round.
  rewrite (bool_decide_eq_false_2 _ Hquit).
  split; [|split].
  - intros Hblank. by rewrite bool_decide_eq_true_2.
  - intros Hne e w' Hinv. rewrite bool_decide_eq_false_2 by done.
    unfold_m. by rewrite Hinv.
  - intros Hne res w' Hinv. rewrite bool_decide_eq_false_2 by done.
    unfold_m. by rewrite Hinv.
Qed.

(** X25. [main] leaves with status 1 as soon as one of the three variables is
    missing or empty, before it reads any input or invokes the agent;
    with all three set it enters the chat loop and never leaves through
    [sys.exit]. *)
Theorem main_checks_the_environment (events : list stdin_event) (w : world) :
  (truthy (environ w !! "OPENAI_API_KEY") = false
   \/ truthy (environ w !! "CAL_API_KEY") = false
   \/ truthy (environ w !! "CAL_EVENT_TYPE_ID") = false ->
   main strip lower invoke events w = (Ok (Exit 1), w))
  /\ (truthy (environ w !! "OPENAI_API_KEY") = true ->
      truthy (environ w !! "CAL_API_KEY") = true ->
      truthy (environ w !! "CAL_EVENT_TYPE_ID") = true ->
      exists status h w',
        main strip lower invoke events w = (Ok (Chat status h), w')
        /\ chat_loop strip lower invoke events [] w = (Ok (status, h), w')).
Proof.
  unfold main. unfold_m. split.
  - intros Hmissing.
    destruct (truthy (environ w !! "OPENAI_API_KEY")); simpl; [|done].
    destruct (truthy (environ w !! "CAL_API_KEY")); simpl; [|done].
    destruct (truthy (environ w !! "CAL_EVENT_TYPE_ID")); simpl; [|done].
    by destruct Hmissing as [?|[?|?]].
  - intros H1 H2 H3. rewrite H1. simpl. rewrite H2. simpl. rewrite H3. simpl.
    destruct (chat_loop_is_a_session events [] w)
      as (status & turns & w' & -> & _).
    by exists status, (cli_session [] turns), w'.
Qed.

End ChatLoop.

(** ** The web UI *)

Section WebUI.
Import Py Net CalApi History Agent App.
Context `{Interpreter} (llm : llm_model).

Ltac unfold_m :=
  unfold run, calls_after, mbind, mret, M_bind, M_ret, try_except, attempt,
    raise, lift, getenv in *.

Lemma missing_vars_nil (env : gmap string string) :
  missing_vars env = [] <->
  truthy (env !! "OPENAI_API_KEY") = true
  /\ truthy (env !! "CAL_API_KEY") = true
  /\ truthy (env !! "CAL_EVENT_TYPE_ID") = true.
Proof.
  unfold missing_vars, required_vars. rewrite !filter_cons, filter_nil.
  destruct (truthy (env !! "OPENAI_API_KEY")),
           (truthy (env !! "CAL_API_KEY")),
           (truthy (env !! "CAL_EVENT_TYPE_ID"));
    repeat case_decide; split; try done;
    try (by intros (? & ? & ?)); by intros.
Qed.

(** X26. [check_environment] lets the page load exactly when the three variables
    are set and not empty; otherwise it stops the page with a banner. Past
    the check, [get_scheduled_events] cannot raise: it returns a list for
    every address. *)
Theorem check_environment_guards_the_client (w : world) :
  (run check_environment w = Ok true <->
   truthy (environ w !! "OPENAI_API_KEY") = true
   /\ truthy (environ w !! "CAL_API_KEY") = true
   /\ truthy (environ w !! "CAL_EVENT_TYPE_ID") = true)
  /\ (run check_environment w = Ok true ->
      forall user_email, exists evs,
        run (get_scheduled_events user_email) w = Ok evs)
  /\ (forall e, run check_environment w = Raise e ->
        exn_msg e = "❌ Missing environment variables: "
                    +:+ join_comma (missing_vars (environ w))
        /\ missing_vars (environ w) <> []).
Proof.
  assert (Hiff : run check_environment w = Ok true
                 <-> missing_vars (environ w) = []).
  { unfold run, check_environment.
    destruct (missing_vars (environ w)); simpl; split; done. }
  split; [by rewrite Hiff, missing_vars_nil|]. split.
  - intros Hok user_email.
    apply Hiff, missing_vars_nil in Hok. destruct Hok as (_ & Hkey & _).
    destruct (environ w !! "CAL_API_KEY") as [key|] eqn:Hk; [|done].
    assert (Hne : key <> EmptyString) by (intros ->; by vm_compute in Hkey).
    destruct (get_scheduled_events_returns w user_email key Hk Hne)
      as (evs & Hrun & _).
    by exists evs.
  - intros e. unfold run, check_environment.
    destruct (missing_vars (environ w)) eqn:Hm; simpl; [done|].
    intros [= <-]. done.
Qed.

(** X27. A submission never raises. It adds the prompt and one reply to the
    display and to the history: the output of the agent, or, when the
    invocation raises, the apology, which is recorded like any reply. *)
Theorem submit_records_every_prompt (st : session_state) (prompt : string)
    (w : world) :
  exists reply w',
    submit llm st prompt w = (Ok (update_chat_history st prompt reply), w')
    /\ (forall res, run (invoke llm prompt (chat_history st)) w = Ok res ->
          reply = output res)
    /\ (forall e, run (invoke llm prompt (chat_history st)) w = Raise e ->
          reply = "I apologize, but I encountered an error processing your request. Please try again.").
Proof.
  unfold submit, process_user_message_with_steps. unfold_m.
  destruct (invoke llm prompt (chat_history st) w) as [[res|e] w'] eqn:Hinv;
    simpl; eexists; eexists; (split; [reflexivity|]);
    split; intros ? [=]; by subst.
Qed.

Lemma displayed_length (turns : list (string * string)) :
  length (displayed turns) = (2 * length turns)%nat.
Proof.
  unfold displayed. induction turns as [|t turns IH]; [done|].
  rewrite bind_cons, length_app, IH. simpl. lia.
Qed.

(** X28. A whole session of the web UI is the session of its turns: the
    prompts in order, each with the reply
    [process_user_message_with_steps] returned for it on the state and in
    the world the earlier submissions left. No submission raises, so every
    prompt has its reply. The display grows by two entries for every
    prompt, and a history within 20 messages keeps within 20 messages. *)
Theorem submit_all_is_a_session (prompts : list string) :
  forall (st : session_state) (w : world),
  exists w',
    submit_all llm st prompts w
    = (Ok (ui_session st (zip prompts (replies_of llm st prompts w))), w')
    /\ length (replies_of llm st prompts w) = length prompts
    /\ length (messages
                 (ui_session st (zip prompts (replies_of llm st prompts w))))
       = (length (messages st) + 2 * length prompts)%nat
    /\ ((length (chat_history st) <= 20)%nat ->
        (length (chat_history
                   (ui_session st (zip prompts (replies_of llm st prompts w))))
         <= 20)%nat).
Proof.
  intros st w.
  assert (Hrun : exists w',
            submit_all llm st prompts w
            = (Ok (ui_session st (zip prompts (replies_of llm st prompts w))),
               w')
            /\ length (replies_of llm st prompts w) = length prompts).
  { revert st w. induction prompts as [|p prompts IH]; intros st w.
    - by exists w.
    - cbn [submit_all replies_of]. unfold mbind, M_bind, submit.
      unfold mbind, M_bind, mret, M_ret.
      destruct (process_user_message_with_steps llm st p w)
        as [[reply|e] w1] eqn:Hstep.
      + destruct (IH (update_chat_history st p reply) w1)
          as (w' & -> & Hlen).
        exists w'. split; [done|]. simpl. by rewrite Hlen.
      + exfalso. revert Hstep.
        unfold process_user_message_with_steps. unfold_m.
        by destruct (invoke llm p (chat_history st) w) as [[res|e'] w2]. }
  destruct Hrun as (w' & Hrun & Hlen).
  exists w'. split; [exact Hrun|]. split; [exact Hlen|]. split.
  - rewrite ui_session_messages, length_app, displayed_length.
    rewrite length_zip, Hlen. lia.
  - apply ui_session_bound.
Qed.

End WebUI.

(** ** Reading an end time back *)

Section RoundTrip.
Import Py Net CalApi Views.
Context `{Interpreter}.

Ltac Zify.zify_post_hook ::= Z.div_mod_to_equations.

Lemma lacks_app (c : ascii) (s t : string) :
  lacks c (s +:+ t) = lacks c s && lacks c t.
Proof.
  induction s as [|c' s IH]; [done|].
  rewrite append_cons. cbn [lacks]. rewrite IH. by rewrite andb_assoc.
Qed.

(** Replacing a text passes over what lacks its first character. *)
Lemma replace_lacks (c : ascii) (old new s t : string) :
  lacks c s = true ->
  replace (String c old) new (s +:+ t) = s +:+ replace (String c old) new t.
Proof.
  unfold replace. induction s as [|c' s IH]; [done|].
  cbn [lacks]. rewrite andb_true_iff, negb_true_iff. intros [Hc Hs].
  rewrite append_cons. cbn [replace_from].
  rewrite prefix_cons.
  destruct (Ascii.ascii_dec c c') as [->|_].
  { by rewrite Ascii.eqb_refl in Hc. }
  by rewrite IH.
Qed.

Lemma digit_char_not_Z (d : Z) :
  0 <= d <= 9 -> Ascii.eqb (digit_char d) "Z" = false.
Proof.
  intros Hd. destruct (digit_char_cases d Hd) as [[-> _]|Hin]; [done|].
  simpl in Hin. repeat (destruct Hin as [<-|Hin]; [done|]). done.
Qed.

Lemma pad2_lacks_Z (n : Z) : lacks "Z" (pad2 n) = true.
Proof.
  unfold pad2. cbn [lacks].
  assert (0 <= n / 10 mod 10 <= 9) by lia.
  assert (0 <= n mod 10 <= 9) by lia.
  by rewrite !digit_char_not_Z.
Qed.

Lemma pad4_lacks_Z (n : Z) : lacks "Z" (pad4 n) = true.
Proof. unfold pad4. by rewrite lacks_app, !pad2_lacks_Z. Qed.

Lemma pad6_lacks_Z (n : Z) : lacks "Z" (pad6 n) = true.
Proof. unfold pad6. by rewrite lacks_app, pad2_lacks_Z, pad4_lacks_Z. Qed.

Lemma local_text_lacks_Z (dt : datetime) : lacks "Z" (local_text dt) = true.
Proof.
  unfold local_text.
  by rewrite !lacks_app, pad4_lacks_Z, !pad2_lacks_Z.
Qed.

Lemma fraction_text_lacks_Z (dt : datetime) :
  lacks "Z" (fraction_text dt) = true.
Proof.
  unfold fraction_text. case_match; [done|].
  by rewrite lacks_app, pad6_lacks_Z.
Qed.

Lemma offset_tail_lacks_Z (a : Z) : lacks "Z" (offset_tail a) = true.
Proof.
  unfold offset_tail. repeat case_match; try done;
    by rewrite ?lacks_app, ?pad2_lacks_Z, ?pad6_lacks_Z.
Qed.

Lemma format_offset_lacks_Z (off : Z) : lacks "Z" (format_offset off) = true.
Proof.
  unfold format_offset.
  rewrite !lacks_app, !pad2_lacks_Z, offset_tail_lacks_Z.
  by destruct (off <? 0).
Qed.

(** A text without [Z] is left alone. *)
Lemma replace_Z_unchanged (s : string) :
  lacks "Z" s = true -> replace "Z" "+00:00" s = s.
Proof.
  intros Hs. rewrite <- (append_empty_r s) at 1.
  rewrite (replace_lacks "Z" EmptyString) by done.
  by rewrite append_empty_r.
Qed.

(** A [Z] at the head becomes [+00:00]. *)
Lemma replace_Z_head (t : string) :
  lacks "Z" t = true ->
  replace "Z" "+00:00" (String "Z" t) = "+00:00" +:+ t.
Proof.
  intros Ht. unfold replace. cbn [replace_from].
  rewrite prefix_cons.
  destruct (Ascii.ascii_dec "Z" "Z") as [_|Hne]; [|by destruct Hne].
  replace (String.prefix EmptyString t) with true by (by destruct t).
  cbn [String.length Nat.sub].
  f_equal. by apply replace_Z_unchanged.
Qed.

(** The zone of an end time, with [Z] put back to [+00:00], is the printed
    offset. *)
Lemma zone_text_as_offset (off : option Z) :
  replace "Z" "+00:00" (zone_text off)
  = match off with Some o => format_offset o | None => EmptyString end.
Proof.
  destruct off as [o|]; [|done]. unfold zone_text.
  destruct ((0 <=? o) && (o <? 60000000)) eqn:Hz.
  - apply andb_true_iff in Hz. destruct Hz as [Hlo Hhi].
    apply Z.leb_le in Hlo. apply Z.ltb_lt in Hhi.
    rewrite append_cons, append_empty_l.
    rewrite replace_Z_head by apply offset_tail_lacks_Z.
    unfold format_offset.
    replace (o <? 0) with false by (symmetry; apply Z.ltb_ge; lia).
    replace (Z.abs o) with o by lia.
    replace (o / 3600000000) with 0 by lia.
    replace (o / 60000000 mod 60) with 0 by lia.
    reflexivity.
  - apply replace_Z_unchanged, format_offset_lacks_Z.
Qed.

(** The end time with [Z] put back to [+00:00] is the ISO text of the
    datetime. *)
Lemma end_time_as_isoformat (dt : datetime) :
  replace "Z" "+00:00"
    (local_text dt +:+ fraction_text dt +:+ zone_text (utcoffset dt))
  = isoformat dt.
Proof.
  unfold isoformat.
  rewrite (replace_lacks "Z" EmptyString) by apply local_text_lacks_Z.
  rewrite (replace_lacks "Z" EmptyString) by apply fraction_text_lacks_Z.
  by rewrite zone_text_as_offset.
Qed.

(** X29. Given as a start time, the end time [book_event] computes is read
    from the ISO text of the datetime it stands for: with [Z] replaced by
    [+00:00], the way [book_event] prepares a start time for
    [datetime.fromisoformat], the end time is exactly [isoformat] of the
    datetime 30 minutes after the start at the same offset. The two
    replacements cancel, also for an offset of less than a minute east of
    UTC, whose end time begins its zone with [Z]. So an interpreter that
    reads the ISO text of that datetime back reads the end time as that
    datetime. *)
Theorem booking_end_time_reads_back (start_time : string)
    (start_dt : datetime) :
  fromisoformat (replace "Z" "+00:00" start_time) = Ok start_dt ->
  ~ (year start_dt = MAXYEAR /\ month start_dt = 12 /\ day start_dt = 31
     /\ hour start_dt = 23 /\ 30 <= minute start_dt) ->
  exists end_time end_dt,
    booking_end_time start_time = Ok end_time
    /\ replace "Z" "+00:00" end_time = isoformat end_dt
    /\ instant end_dt = instant start_dt + 30 * 60 * 1000000
    /\ utcoffset end_dt = utcoffset start_dt
    /\ well_formed end_dt
    /\ (fromisoformat (isoformat end_dt) = Ok end_dt ->
        fromisoformat (replace "Z" "+00:00" end_time) = Ok end_dt).
Proof.
  intros Hparse Hlast.
  unfold booking_end_time. rewrite Hparse.
  apply fromisoformat_well_formed, well_formed_spec in Hparse.
  destruct Hparse as (Hv & Hus & Hoff).
  destruct (add_minutes start_dt 30) as [end_dt|e] eqn:Hadd.
  - destruct (add_minutes_instant _ _ 30 Hv ltac:(lia) Hadd)
      as (Hi & Ho & _ & Hus' & Hv').
    assert (Hback : replace "Z" "+00:00"
                      (replace "+00:00" "Z" (isoformat end_dt))
                    = isoformat end_dt).
    { rewrite end_time_text by (by rewrite Ho).
      apply end_time_as_isoformat. }
    exists (replace "+00:00" "Z" (isoformat end_dt)), end_dt.
    split; [done|]. split; [exact Hback|]. split; [exact Hi|].
    split; [exact Ho|]. split.
    + apply well_formed_spec. by rewrite Ho, Hus'.
    + intros Hread. by rewrite Hback.
  - destruct (add_minutes_overflow _ _ _ Hv Hadd) as (Hy & Hm & Hd & Hh).
    exfalso. apply Hlast.
    unfold valid in Hv. apply valid_fields_spec in Hv.
    repeat split; try done; lia.
Qed.

End RoundTrip.

(** ** The further properties on concrete worlds *)

Section MoreExamples.
Import Py Net CalApi Main History Agent Cli App Views.
Import Samples MoreSamples Reference ReferenceText.

Lemma list_events_sends_one_request_example :
  calls_after (get_scheduled_events "owner@example.com")
    (world_of env_full unreachable)
  = [] ++ [list_request "cal_live_key"].
Proof.
  apply (list_events_sends_one_request (world_of env_full unreachable)
           "owner@example.com" "cal_live_key");
    [reflexivity|discriminate].
Defined.

Lemma list_events_all_or_nothing_example :
  run (get_scheduled_events "owner@example.com")
      (world_of env_full (answering 200 "OK" (Ok mixed_body))) = Ok [].
Proof.
  apply (list_events_all_or_nothing
           (world_of env_full (answering 200 "OK" (Ok mixed_body)))
           "owner@example.com" "cal_live_key"
           (Response 200 "OK" "https://api.cal.com/v1/bookings" (Ok mixed_body))
           {[ "bookings" := PList [PDict record1; PStr "oops"; PDict record2] ]}
           [PDict record1; PStr "oops"; PDict record2]).
  - reflexivity.
  - discriminate.
  - reflexivity.
  - simpl. lia.
  - reflexivity.
  - reflexivity.
  - reflexivity.
Defined.

Lemma list_events_email_only_labels_example :
  run (get_scheduled_events "someone.else@example.com")
      (world_of env_full (answering 200 "OK" (Ok bookings_body)))
  = Ok (with_attendee "someone.else@example.com"
          <$> (event_of "owner@example.com" <$> [record1; record2])).
Proof.
  apply (list_events_email_only_labels
           (world_of env_full (answering 200 "OK" (Ok bookings_body)))
           "owner@example.com" "someone.else@example.com").
  vm_compute. reflexivity.
Defined.

Lemma list_user_events_default_email_example :
  Forall (fun ev => attendee_email ev
                    = default "song.wd@icloud.com"
                        (env_with_owner !! "DEFAULT_USER_EMAIL"))
    (event_of "owner@example.com" <$> [record1; record2]).
Proof.
  apply (list_user_events_default_email
           (world_of env_with_owner (answering 200 "OK" (Ok bookings_body)))).
  vm_compute. reflexivity.
Defined.

Lemma booking_needs_configuration_example :
  book_event "2025-07-11T14:00:00Z" "guest@example.com" "Sync"
    (world_of env_key_only accepting)
  = (Ok "Error: CAL_EVENT_TYPE_ID not found in environment variables",
     world_of env_key_only accepting).
Proof.
  destruct (booking_needs_configuration (world_of env_key_only accepting)
              "2025-07-11T14:00:00Z" "guest@example.com" "Sync")
    as (_ & Htype).
  apply Htype; reflexivity.
Defined.

Lemma booking_invalid_start_sends_nothing_example :
  book_event "tomorrow at 2 PM" "guest@example.com" "Sync"
    (world_of env_named_event_type accepting)
  = (Ok "❌ Booking failed: Invalid start time format",
     world_of env_named_event_type accepting).
Proof.
  apply (booking_invalid_start_sends_nothing
           (world_of env_named_event_type accepting) "tomorrow at 2 PM"
           "guest@example.com" "Sync"
           (Exn ValueError "Invalid isoformat string: tomorrow at 2 PM"));
    reflexivity.
Defined.

Lemma booking_raises_on_event_type_example :
  exists msg,
    book_event "2025-07-11T14:00:00Z" "guest@example.com" "Sync"
      (world_of env_named_event_type accepting)
    = (Raise (Exn ValueError msg), world_of env_named_event_type accepting).
Proof.
  apply (booking_raises_on_event_type
           (world_of env_named_event_type accepting) "cal_live_key" "standup"
           "2025-07-11T14:00:00Z" "2025-07-11T14:30:00Z");
    try reflexivity; discriminate.
Defined.

Lemma booking_transport_failure_example :
  run (book_event "2025-07-11T14:00:00Z" "guest@example.com" "Sync")
      (world_of env_full unreachable)
  = Ok "❌ Booking failed: Network error - Connection refused".
Proof.
  apply (booking_transport_failure (world_of env_full unreachable)
           "cal_live_key" 42 "2025-07-11T14:00:00Z" "2025-07-11T14:30:00Z"
           "guest@example.com" "Sync"
           (Exn ConnectionError "Connection refused")).
  - apply sample_ready. reflexivity.
  - reflexivity.
  - reflexivity.
Defined.

Lemma booking_confirmation_example :
  run (book_event "2025-07-11T14:00:00Z" "guest@example.com" "Sync")
      (world_of env_full plain_ok)
  = Ok "✅ Event 'Sync' successfully booked! Booking ID: Unknown, Start time: 2025-07-11T14:00:00Z".
Proof.
  destruct (booking_confirmation (world_of env_full plain_ok)
              "cal_live_key" 42 "2025-07-11T14:00:00Z" "2025-07-11T14:30:00Z"
              "guest@example.com" "Sync"
              (Response 200 "OK"
                 "https://api.cal.com/v1/bookings?apiKey=cal_live_key"
                 (Ok (PDict ∅))) ∅) as (_ & Hunknown).
  - apply sample_ready. reflexivity.
  - reflexivity.
  - simpl. lia.
  - reflexivity.
  - apply Hunknown. reflexivity.
Defined.

Lemma booking_always_answers_example :
  exists text,
    run (book_event "2025-07-11T14:00:00Z" "guest@example.com" "Sync")
        (world_of env_full bad_page) = Ok text.
Proof.
  apply (booking_always_answers (world_of env_full bad_page)
           "cal_live_key" 42 "2025-07-11T14:00:00Z" "2025-07-11T14:30:00Z").
  - apply sample_ready. reflexivity.
  - intros e He. discriminate He.
Defined.

Lemma booking_request_shape_example :
  exists req,
    calls_after (book_event "2025-07-11T14:00:00Z" "john.doe@example.com" "Sync")
      (world_of env_full accepting) = [] ++ [req]
    /\ req_method req = POST
    /\ req_url req = "https://api.cal.com/v1/bookings?apiKey=" +:+ "cal_live_key"
    /\ req_params req = []
    /\ payload_field req "eventTypeId" = Some (PInt 42)
    /\ payload_field req "status" = Some (PStr "PENDING")
    /\ payload_field req "timeZone" = Some (PStr "UTC")
    /\ payload_field req "title" = Some (PStr "Sync")
    /\ payload_field req "description"
       = Some (PStr ("Booked via API: " +:+ "Sync"))
    /\ exists responses,
         payload_field req "responses" = Some (PDict responses)
         /\ responses !! "email" = Some (PStr "john.doe@example.com")
         /\ responses !! "name"
            = Some (PStr (str_title (replace "." " "
                            (split_head "@" "john.doe@example.com")))).
Proof.
  apply (booking_request_shape (world_of env_full accepting)
           "cal_live_key" 42 "2025-07-11T14:00:00Z" "2025-07-11T14:30:00Z").
  apply sample_ready. reflexivity.
Defined.

Lemma booking_bad_request_fallback_example :
  run (book_event "2025-07-11T14:00:00Z" "guest@example.com" "Sync")
      (world_of env_full bad_page)
  = Ok "❌ Booking failed: Bad request".
Proof.
  apply (booking_bad_request_fallback (world_of env_full bad_page)
           "cal_live_key" 42 "2025-07-11T14:00:00Z" "2025-07-11T14:30:00Z"
           "guest@example.com" "Sync"
           (Response 400 "Bad Request"
              "https://api.cal.com/v1/bookings?apiKey=cal_live_key" not_json)).
  - apply sample_ready. reflexivity.
  - reflexivity.
  - reflexivity.
  - exact I.
Defined.

Lemma cancel_needs_key_example :
  cancel_event 9184891 "Schedule conflict" (world_of env_empty not_found)
  = (Ok "Error: CAL_API_KEY not found in environment variables",
     world_of env_empty not_found).
Proof.
  apply (cancel_needs_key (world_of env_empty not_found)). reflexivity.
Defined.

Lemma cancel_sends_one_request_example :
  exists req,
    calls_after (cancel_event 9184891 "Schedule conflict")
      (world_of env_full not_found) = [] ++ [req]
    /\ req_method req = DELETE
    /\ req_url req = "https://api.cal.com/v1/bookings/"
                     +:+ str_int 9184891 +:+ "/cancel"
    /\ req_params req = [("apiKey", "cal_live_key");
                         ("cancellationReason", "Schedule conflict")]
    /\ req_json req = None.
Proof.
  apply (cancel_sends_one_request (world_of env_full not_found)
           "cal_live_key" 9184891 "Schedule conflict");
    [reflexivity|discriminate].
Defined.

Lemma cancel_confirmation_example :
  exists text,
    run (cancel_event 9184891 "Schedule conflict") (world_of env_full plain_ok)
    = Ok text
    /\ text = "✅ Booking " +:+ str_int 9184891
              +:+ " successfully cancelled. Reason: " +:+ "Schedule conflict"
    /\ contains (str_int 9184891) text = true
    /\ contains "Schedule conflict" text = true.
Proof.
  apply (cancel_confirmation (world_of env_full plain_ok) "cal_live_key"
           9184891 "Schedule conflict"
           (Response 200 "OK" "https://api.cal.com/v1/bookings/9184891/cancel"
              (Ok (PDict ∅)))).
  - reflexivity.
  - discriminate.
  - reflexivity.
  - simpl. lia.
Defined.

Lemma cancel_failure_texts_example :
  run (cancel_event 9184891 "Schedule conflict")
      (world_of env_full (refusing "no_available_users_found_error"))
  = Ok ("❌ Cancellation failed: " +:+ "no_available_users_found_error").
Proof.
  destruct (cancel_failure_texts
              (world_of env_full (refusing "no_available_users_found_error"))
              "cal_live_key" 9184891 "Schedule conflict"
              (Response 400 "Bad Request"
                 "https://api.cal.com/v1/bookings/9184891/cancel"
                 (message_body "no_available_users_found_error")))
    as (Hmsg & _).
  - reflexivity.
  - discriminate.
  - reflexivity.
  - apply (Hmsg {[ "message" := PStr "no_available_users_found_error" ]});
      reflexivity.
Defined.

Lemma cancel_raises_on_unreadable_400_example :
  run (cancel_event 9184891 "Schedule conflict") (world_of env_full bad_page)
  = Raise (Exn RequestsJSONDecodeError
             "Expecting value: line 1 column 1 (char 0)").
Proof.
  destruct (cancel_raises_on_unreadable_400 (world_of env_full bad_page)
              "cal_live_key" 9184891 "Schedule conflict"
              (Response 400 "Bad Request"
                 "https://api.cal.com/v1/bookings/9184891/cancel" not_json))
    as (Hraise & _).
  - reflexivity.
  - discriminate.
  - reflexivity.
  - reflexivity.
  - apply Hraise. reflexivity.
Defined.

Lemma cancel_transport_failure_example :
  run (cancel_event 9184891 "Schedule conflict")
      (world_of env_full unreachable)
  = Ok "❌ Cancellation failed: Network error - Connection refused".
Proof.
  apply (cancel_transport_failure (world_of env_full unreachable)
           "cal_live_key" 9184891 "Schedule conflict"
           (Exn ConnectionError "Connection refused")).
  - reflexivity.
  - discriminate.
  - reflexivity.
  - reflexivity.
Defined.

Lemma cancel_tool_request_example :
  calls_after (cancel_calendar_booking " 9_184_891 " "Schedule conflict")
    (world_of env_full not_found)
  = [] ++ [cancel_request "cal_live_key" 9184891 "Schedule conflict"].
Proof.
  apply (cancel_tool_request (world_of env_full not_found) "cal_live_key"
           " 9_184_891 " "Schedule conflict" 9184891).
  - reflexivity.
  - discriminate.
  - reflexivity.
Defined.

Lemma quit_ends_the_chat_example :
  chat_loop ascii_strip ascii_lower echo_agent
    (Typed "  QUIT " :: [Typed "book a meeting"]) []
    (world_of env_all unreachable)
  = (Ok (Left, []), world_of env_all unreachable)
  /\ chat_loop ascii_strip ascii_lower echo_agent
       ([Typed "hello"] ++ Typed "  QUIT " :: [Typed "book a meeting"]) []
       (world_of env_all unreachable)
     = chat_loop ascii_strip ascii_lower echo_agent
         ([Typed "hello"] ++ [Typed "  QUIT "]) []
         (world_of env_all unreachable).
Proof.
  apply (quit_ends_the_chat ascii_strip ascii_lower echo_agent "  QUIT ").
  vm_compute. apply list_elem_of_In. simpl. tauto.
Defined.

Lemma chat_round_records_successes_only_example :
  chat_round ascii_strip ascii_lower failing_agent "hello" []
    (world_of env_all unreachable)
  = (Ok (Some []), world_of env_all unreachable).
Proof.
  destruct (chat_round_records_successes_only ascii_strip ascii_lower
              failing_agent "hello" [] (world_of env_all unreachable))
    as (_ & Hfail & _).
  - intros Hin. apply list_elem_of_In in Hin. vm_compute in Hin.
    repeat (destruct Hin as [Hin|Hin]; [discriminate Hin|]). exact Hin.
  - apply (Hfail ltac:(discriminate) (Exn OtherException "rate limit")).
    reflexivity.
Defined.

Lemma main_checks_the_environment_example :
  main ascii_strip ascii_lower echo_agent [Typed "hello"]
    (world_of env_full unreachable)
  = (Ok (Exit 1), world_of env_full unreachable).
Proof.
  destruct (main_checks_the_environment ascii_strip ascii_lower echo_agent
              [Typed "hello"] (world_of env_full unreachable)) as (Hexit & _).
  apply Hexit. left. reflexivity.
Defined.

Lemma check_environment_guards_the_client_example :
  exists evs,
    run (get_scheduled_events "owner@example.com")
        (world_of env_all unreachable) = Ok evs.
Proof.
  destruct (check_environment_guards_the_client
              (world_of env_all unreachable)) as (_ & Hguard & _).
  apply (Hguard eq_refl "owner@example.com").
Defined.

Lemma submit_records_every_prompt_example :
  run (submit broken_model initial_state "What is on today?")
      (world_of env_all unreachable)
  = Ok (update_chat_history initial_state "What is on today?"
          "I apologize, but I encountered an error processing your request. Please try again.").
Proof.
  destruct (submit_records_every_prompt broken_model initial_state
              "What is on today?" (world_of env_all unreachable))
    as (reply & w' & Hsubmit & _ & Hfail).
  unfold run. rewrite Hsubmit. simpl. do 2 f_equal.
  apply (Hfail (Exn OtherException "rate limit")). reflexivity.
Defined.

Lemma booking_end_time_reads_back_example :
  exists end_time end_dt,
    booking_end_time "2025-12-31T23:45:00.250Z" = Ok end_time
    /\ replace "Z" "+00:00" end_time = isoformat end_dt
    /\ instant end_dt
       = instant (Datetime 2025 12 31 23 45 0 250000 (Some 0))
         + 30 * 60 * 1000000
    /\ utcoffset end_dt = Some 0
    /\ well_formed end_dt
    /\ (fromisoformat (isoformat end_dt) = Ok end_dt ->
        fromisoformat (replace "Z" "+00:00" end_time) = Ok end_dt).
Proof.
  apply (booking_end_time_reads_back "2025-12-31T23:45:00.250Z"
           (Datetime 2025 12 31 23 45 0 250000 (Some 0))).
  - vm_compute. reflexivity.
  - intros (Hy & _). discriminate Hy.
Defined.

End MoreExamples.
